(** * matlab_proxy/util/troubleshooter.py

    A shallow embedding of the environment troubleshooter of matlab-proxy
    and the properties of its report assembly.

    The script talks to its host all the time (executable search, shell
    commands, the terminal, the environment, the log file), so it is
    embedded as a program tree over the requests it makes.  A tree is run
    against an arbitrary host, which answers every request and may change
    while doing so; the run returns the value or the exception of the
    program together with the list of requests that were made. *)

From Stdlib Require Import String Ascii List Bool Arith ZArith Lia.
Import ListNotations.
Local Open Scope string_scope.
Local Open Scope nat_scope.

(* ===================================================================== *)
(** ** Python strings *)
(* ===================================================================== *)

(** A [str] is modelled as a [string] whose characters are the code points
    below 256. *)
Module PyStr.

Definition nl : string := String "010"%char "".
Definition esc : string := String "027"%char "".

(** [len(s)] *)
Definition len (s : string) : nat := String.length s.

(** [sep.join(l)] *)
Definition join (sep : string) (l : list string) : string :=
  String.concat sep l.

(** [c.isspace()] on the code points below 256: TAB, LF, VT, FF, CR,
    FS, GS, RS, US, SPACE, NEL and NBSP. *)
Definition isspace (c : ascii) : bool :=
  let n := nat_of_ascii c in
  ((9 <=? n) && (n <=? 13)) || ((28 <=? n) && (n <=? 32))
  || (n =? 133) || (n =? 160).

(** [s.lstrip()] *)
Fixpoint lstrip (s : string) : string :=
  match s with
  | String c r => if isspace c then lstrip r else s
  | EmptyString => EmptyString
  end.

(** [s.rstrip()] *)
Fixpoint rstrip (s : string) : string :=
  match s with
  | String c r =>
      match rstrip r with
      | EmptyString => if isspace c then EmptyString else String c EmptyString
      | r' => String c r'
      end
  | EmptyString => EmptyString
  end.

(** [s.strip()] *)
Definition strip (s : string) : string := rstrip (lstrip s).

(** [fill * n] for a one-character [fill] *)
Fixpoint repeat_char (fill : ascii) (n : nat) : string :=
  match n with
  | O => EmptyString
  | S k => String fill (repeat_char fill k)
  end.

(** [s.center(width)]: CPython pads with
    [left = marg / 2 + (marg & width & 1)] spaces on the left and the
    remainder on the right. *)
Definition center (s : string) (width : nat) : string :=
  if width <=? len s then s
  else
    let marg := width - len s in
    let left := marg / 2 + (if Nat.odd marg && Nat.odd width then 1 else 0) in
    repeat_char " "%char left ++ s ++ repeat_char " "%char (marg - left).

(** The line boundaries of [str.splitlines] below 256:
    LF, VT, FF, CR, FS, GS, RS and NEL (CR LF counts once). *)
Definition is_linebreak (c : ascii) : bool :=
  let n := nat_of_ascii c in
  ((10 <=? n) && (n <=? 13)) || ((28 <=? n) && (n <=? 30)) || (n =? 133).

(** [splitlines_from cur s]: the lines of [s], the first one prefixed by
    the characters [cur] read so far. *)
Fixpoint splitlines_from (cur : string) (s : string) : list string :=
  match s with
  | EmptyString => if (len cur =? 0) then [] else [cur]
  | String c r =>
      if is_linebreak c then
        match r with
        | String d r' =>
            if (nat_of_ascii c =? 13) && (nat_of_ascii d =? 10)
            then cur :: splitlines_from "" r'
            else cur :: splitlines_from "" r
        | EmptyString => [cur]
        end
      else splitlines_from (cur ++ String c "") r
  end.

(** [s.splitlines()] *)
Definition splitlines (s : string) : list string := splitlines_from "" s.

(** [f"{x}"] for an [Optional[str]]: [None] is printed as [None]. *)
Definition fmt (x : option string) : string :=
  match x with
  | Some s => s
  | None => "None"
  end.

End PyStr.

(* ===================================================================== *)
(** ** Python exceptions *)
(* ===================================================================== *)

(** The exception classes the script can meet.  [TimeoutError] is the
    builtin one, a subclass of [OSError]; [TimeoutExpired] is the class of
    the [subprocess] module, a subclass of [SubprocessError]. *)
Inductive exn_class : Type :=
| BaseException
| Exception
| OSError
| TimeoutError
| TypeError
| SubprocessError
| TimeoutExpired.

(** The direct base class, as the standard library declares it. *)
Definition base_class (c : exn_class) : option exn_class :=
  match c with
  | BaseException => None
  | Exception => Some BaseException
  | OSError => Some Exception
  | TimeoutError => Some OSError
  | TypeError => Some Exception
  | SubprocessError => Some Exception
  | TimeoutExpired => Some SubprocessError
  end.

Definition exn_class_eqb (a b : exn_class) : bool :=
  match a, b with
  | BaseException, BaseException | Exception, Exception
  | OSError, OSError | TimeoutError, TimeoutError | TypeError, TypeError
  | SubprocessError, SubprocessError | TimeoutExpired, TimeoutExpired => true
  | _, _ => false
  end.

(** [issubclass_upto n c d]: [d] is reached from [c] in at most [n] steps
    along [base_class]. *)
Fixpoint issubclass_upto (n : nat) (c d : exn_class) : bool :=
  exn_class_eqb c d ||
  match n with
  | O => false
  | S k =>
      match base_class c with
      | Some b => issubclass_upto k b d
      | None => false
      end
  end.

(** [issubclass(c, d)]; no chain of bases is longer than three. *)
Definition issubclass (c d : exn_class) : bool := issubclass_upto 3 c d.

(* ===================================================================== *)
(** ** Requests to the host and program trees *)
(* ===================================================================== *)

(** [os.terminal_size] *)
Record terminal_size : Type := { columns : nat; lines : nat }.

(** [subprocess.CompletedProcess] with captured text streams *)
Record CompletedProcess : Type :=
  { returncode : Z; stdout : string; stderr : string }.

(** What became of a child process that was given [timeout] seconds. *)
Inductive child_status : Type :=
| Exited (cp : CompletedProcess)
| StillRunning.

(** The value or the exception an operation ends with. *)
Inductive outcome (A : Type) : Type :=
| Returned (a : A)
| Raised (e : exn_class).
Arguments Returned {A} a.
Arguments Raised {A} e.

(** The script asks for the terminal size only after standard output has
    turned out to be a terminal, where the query has an answer. *)
Inductive request : Type :=
| StdoutIsatty                                  (* sys.stdout.isatty() *)
| GetTerminalSize                               (* os.get_terminal_size() *)
| Which (name : string)                         (* shutil.which(name) *)
| SpawnShell (cmd : string) (timeout : nat)     (* the child of subprocess.run *)
| PlatformSystem                                (* platform.system() *)
| PlatformRelease                               (* platform.release() *)
| PlatformPlatform                              (* platform.platform() *)
| EnvironGet (key : string)                     (* os.environ.get(key) *)
| PathExists (path : string)                    (* os.path.exists(path) *)
| ReadText (path : string)                      (* open(path, "r").read() *)
| PrintOut (text : string).                     (* print(text) *)

Definition reply (r : request) : Type :=
  match r with
  | StdoutIsatty => bool
  | GetTerminalSize => terminal_size
  | Which _ => option string
  | SpawnShell _ _ => child_status
  | PlatformSystem | PlatformRelease | PlatformPlatform => string
  | EnvironGet _ => option string
  | PathExists _ => bool
  | ReadText _ => outcome string
  | PrintOut _ => unit
  end.

(** A program: it returns, raises, or asks the host and goes on with the
    answer. *)
Inductive prog (A : Type) : Type :=
| Ret (a : A)
| Raise (e : exn_class)
| Ask (r : request) (k : reply r -> prog A).
Arguments Ret {A} a.
Arguments Raise {A} e.
Arguments Ask {A} r k.

Fixpoint bind {A B : Type} (p : prog A) (f : A -> prog B) : prog B :=
  match p with
  | Ret a => f a
  | Raise e => Raise e
  | Ask r k => Ask r (fun x => bind (k x) f)
  end.

Declare Scope prog_scope.
Delimit Scope prog_scope with prog.
Notation "x <- p ;; q" := (bind p (fun x => q))
  (at level 61, p at next level, right associativity) : prog_scope.
Local Open Scope prog_scope.

(** One request, answered by the host. *)
Definition call (r : request) : prog (reply r) := Ask r (fun x => Ret x).

(** [try: p except cls: handler] *)
Fixpoint try_except {A : Type} (p : prog A) (cls : exn_class)
  (handler : prog A) : prog A :=
  match p with
  | Ret a => Ret a
  | Raise e => if issubclass e cls then handler else Raise e
  | Ask r k => Ask r (fun x => try_except (k x) cls handler)
  end.

(** [for x in l: s = body(x, s)] *)
Fixpoint for_each {A S : Type} (l : list A) (body : A -> S -> prog S)
  (s : S) : prog S :=
  match l with
  | [] => Ret s
  | x :: t => s' <- body x s ;; for_each t body s'
  end.

(** [l.append(x)] *)
Definition append {A : Type} (l : list A) (x : A) : list A := (l ++ [x])%list.

(** [[f(x) for x in l]] *)
Fixpoint list_comp {A B : Type} (f : A -> prog B) (l : list A)
  : prog (list B) :=
  match l with
  | [] => Ret []
  | x :: t => y <- f x ;; ys <- list_comp f t ;; Ret (y :: ys)
  end.

(** *** Running a program against a host *)

Section Run.

Variable W : Type.
Variable respond : forall r : request, W -> reply r * W.

(** The result, the host afterwards and the requests made, in order. *)
Fixpoint run {A : Type} (p : prog A) (w : W)
  : outcome A * W * list request :=
  match p with
  | Ret a => (Returned a, w, [])
  | Raise e => (Raised e, w, [])
  | Ask r k =>
      let (x, w1) := respond r w in
      let '(o, w2, tr) := run (k x) w1 in
      (o, w2, r :: tr)
  end.

End Run.
Arguments run {W} respond {A} p w.

(* ===================================================================== *)
(** ** The troubleshooter *)
(* ===================================================================== *)

(** [subprocess.run(cmd, shell=True, capture_output=True, timeout=timeout,
    text=True)]: when the child has not finished after [timeout] seconds it
    is killed and [subprocess.TimeoutExpired] is raised. *)
Definition subprocess_run (cmd : string) (timeout : nat)
  : prog CompletedProcess :=
  st <- call (SpawnShell cmd timeout) ;;
  match st with
  | Exited cp => Ret cp
  | StillRunning => Raise TimeoutExpired
  end.

(** [s.ljust(width, fillchar)]: a [fillchar] that is not one character long
    is a [TypeError]. *)
Definition ljust (s : string) (width : nat) (fillchar : string)
  : prog string :=
  match fillchar with
  | String c EmptyString =>
      Ret (if width <=? PyStr.len s then s
           else s ++ PyStr.repeat_char c (width - PyStr.len s))
  | _ => Raise TypeError
  end.

(** The two dataclasses [cmd_output] and its subclass [cmd_only_output]
    have the same fields and differ in [__str__]. *)
Inductive cmd_class : Type :=
| class_cmd_output
| class_cmd_only_output.

Record cmd_output : Type := instance
  { cls : cmd_class; command : string; output : option string;
    isError : bool }.

Definition new_cmd_output := instance class_cmd_output.
Definition new_cmd_only_output := instance class_cmd_only_output.

Record Report : Type :=
  { body : string; recommendations : string; has_error : bool }.

(** [Report.__str__] *)
Definition Report_str (rep : Report) : string :=
  PyStr.join "" [body rep; recommendations rep].

Section Troubleshooter.

(** [os.name], read once when the module is loaded. *)
Variable os_name : string.

Definition GREEN_OK : string :=
  if negb (os_name =? "nt")%string
  then PyStr.esc ++ "[32mOK" ++ PyStr.esc ++ "[0m" else "ok".

Definition RED_X : string :=
  if negb (os_name =? "nt")%string
  then PyStr.esc ++ "[31m X" ++ PyStr.esc ++ "[0m" else " X".

(** [cmd_output.__str__], overridden by [cmd_only_output.__str__] *)
Definition cmd_output_str (self : cmd_output) : string :=
  match cls self with
  | class_cmd_output =>
      let err_icon := if isError self then RED_X else GREEN_OK in
      command self ++ " - " ++ PyStr.fmt (output self) ++ " - " ++ err_icon
        ++ PyStr.nl
  | class_cmd_only_output => PyStr.fmt (output self) ++ PyStr.nl
  end.

Definition find_executable (args : list string) : prog (list cmd_output) :=
  for_each args
    (fun name output =>
       path <- call (Which name) ;;
       Ret (append output
              (new_cmd_output name path
                 (match path with None => true | Some _ => false end))))
    [].

Definition exec_command (args : list string) : prog (list cmd_output) :=
  for_each args
    (fun cmd output =>
       try_except
         (completed_process <- subprocess_run cmd 10 ;;
          Ret (append output
                 (new_cmd_only_output cmd
                    (Some (PyStr.strip (stdout completed_process)
                           ++ PyStr.strip (stderr completed_process)))
                    (if negb (stderr completed_process =? "")%string
                     then true else false))))
         TimeoutError
         (Ret (append output
                 (new_cmd_only_output cmd
                    (Some (cmd ++ " command timed out!")) true))))
    [].

(** The local variables [body], [error] and [err_recommendation] of
    [process_output], and one turn of its loop. *)
Definition locals : Type := (string * bool * string)%type.

Definition process_output_step (suppress_suggestions : bool)
  (st : locals) (cmd_pair : cmd_output) : locals :=
  let '(_, error, err_recommendation) := st in
  let body := cmd_output_str cmd_pair in
  let error :=
    match output cmd_pair with None => true | Some _ => error end in
  let err_recommendation :=
    if error && negb suppress_suggestions
    then "Recommendation: " ++ command cmd_pair
         ++ " is not installed. Please install " ++ command cmd_pair ++ "."
         ++ PyStr.nl
    else err_recommendation in
  (body, error, err_recommendation).

Definition process_output_loop (suppress_suggestions : bool)
  (results : list cmd_output) : locals :=
  fold_left (process_output_step suppress_suggestions) results
    ("", false, "").

Definition process_output (func : list string -> prog (list cmd_output))
  (suppress_suggestions : bool) (args : list string) : prog Report :=
  results <- func args ;;
  let '(b, e, r) := process_output_loop suppress_suggestions results in
  Ret {| body := b; recommendations := r; has_error := e |}.

Definition find_executable_and_version (cmd : string)
  (suppress_suggestions : bool) : prog (list Report) :=
  let output := [] in
  rep <- process_output find_executable suppress_suggestions [cmd] ;;
  let output := append output rep in
  if negb (has_error rep) then
    version <- process_output exec_command suppress_suggestions
                 [cmd ++ " --version"] ;;
    Ret (append output version)
  else Ret output.

Definition prettify (boundary_filler : string) (text_arr : list string)
  : prog string :=
  tty <- call StdoutIsatty ;;
  if negb tty then
    Ret (PyStr.nl ++ "============================" ++ PyStr.nl
         ++ PyStr.join PyStr.nl text_arr
         ++ PyStr.nl ++ "============================" ++ PyStr.nl)
  else
    size <- call GetTerminalSize ;;
    let cols := columns size in
    if existsb (fun text => cols <? PyStr.len text) text_arr then
      Ret (fold_left (fun result text => result ++ text ++ PyStr.nl)
             text_arr "")
    else
      upper <- (if 0 <? List.length text_arr
                then (fill <- ljust "" cols boundary_filler ;;
                      Ret (PyStr.nl ++ fill ++ PyStr.nl))
                else Ret "") ;;
      lower <- (if 0 <? List.length text_arr
                then ljust "" cols boundary_filler
                else Ret "") ;;
      let content :=
        fold_left (fun content text =>
                     content ++ PyStr.center text cols ++ PyStr.nl)
          text_arr "" in
      Ret (upper ++ content ++ lower).

Definition generate_header (title : string) : prog string :=
  framed <- prettify "-" [title] ;;
  Ret (framed ++ PyStr.nl).

Definition os_info : prog string :=
  let title := "OS information" in
  header <- generate_header title ;;
  system <- call PlatformSystem ;;
  release <- call PlatformRelease ;;
  platform <- call PlatformPlatform ;;
  let os_data := [system; release; platform] in
  let status := PyStr.join PyStr.nl os_data in
  uname_op <- process_output exec_command false ["uname -v"] ;;
  Ret (header ++ status ++ PyStr.nl ++ Report_str uname_op).

Definition check_python_and_pip_installed : prog string :=
  let title := "Python and pip executables" in
  header <- generate_header title ;;
  let commands_to_execute := ["python"; "pip"; "python3"] in
  outputs <- list_comp (fun cmd => find_executable_and_version cmd false)
               commands_to_execute ;;
  let flat_outputs := List.concat outputs in
  Ret (header ++ PyStr.join "" (map Report_str flat_outputs)).

Definition list_matlab : prog string :=
  let title := "matlab executable" in
  header <- generate_header title ;;
  rep <- process_output find_executable false ["matlab"] ;;
  Ret (header ++ Report_str rep).

Definition list_installed_packages : prog string :=
  let title := "Installed packages" in
  header <- generate_header title ;;
  cmd_output <- process_output exec_command true
    ["python -m pip list | grep -E " ++ String "034"%char
       ("jupyter|matlab-proxy|jupyter-matlab-proxy|notebook"
        ++ String "034"%char "")] ;;
  Ret (header ++ Report_str cmd_output).

Definition list_jupyter_executable : prog string :=
  let title := "jupyter executable" in
  header <- generate_header title ;;
  cmd_output <- process_output find_executable false ["jupyter"] ;;
  Ret (header ++ Report_str cmd_output).

Definition list_matlab_proxy_on_path : prog string :=
  let title := "matlab-proxy-app executable" in
  header <- generate_header title ;;
  cmd_output <- process_output find_executable false ["matlab-proxy-app"] ;;
  Ret (header ++ Report_str cmd_output).

Definition list_env_vars : prog string :=
  let title := "Environment variables" in
  header <- generate_header title ;;
  cmd_output <- process_output exec_command true
    ["env | grep -iE " ++ String "034"%char
       ("matlab|mw|mwi" ++ String "034"%char "")] ;;
  Ret (header ++ Report_str cmd_output).

Definition list_server_extensions : prog string :=
  let title := "Server extensions" in
  header <- generate_header title ;;
  let commands_to_execute :=
    ["jupyter serverextension list"; "jupyter nbextension list";
     "jupyter labextension list"] in
  outputs <- list_comp (fun cmd => process_output exec_command false [cmd])
               commands_to_execute ;;
  Ret (header ++ PyStr.join "" (map Report_str outputs)).

Definition collect_logs_from_logfile : prog string :=
  let title := "matlab proxy logs" in
  header <- generate_header title ;;
  log_file <- call (EnvironGet "MWI_LOG_FILE") ;;
  logs <- match log_file with
          | None => Ret []
          | Some path =>
              present <- call (PathExists path) ;;
              if present then
                text <- call (ReadText path) ;;
                match text with
                | Returned t => Ret (PyStr.splitlines t)
                | Raised e => Raise e
                end
              else Ret []
          end ;;
  Ret (header ++ PyStr.join PyStr.nl logs).

Definition list_conda_related_information : prog string :=
  let title := "Conda information" in
  header <- generate_header title ;;
  outputs <- find_executable_and_version "conda" true ;;
  env_list <- process_output exec_command true ["conda env list"] ;;
  Ret (header ++ PyStr.join "" (map Report_str outputs)
       ++ Report_str env_list).

Definition print_environment_info : prog unit :=
  let output := "" in
  s <- list_matlab ;; let output := output ++ s in
  s <- list_matlab_proxy_on_path ;; let output := output ++ s in
  s <- list_jupyter_executable ;; let output := output ++ s in
  s <- check_python_and_pip_installed ;; let output := output ++ s in
  s <- os_info ;; let output := output ++ s in
  s <- list_conda_related_information ;; let output := output ++ s in
  s <- list_installed_packages ;; let output := output ++ s in
  s <- list_server_extensions ;; let output := output ++ s in
  s <- list_env_vars ;; let output := output ++ s in
  s <- collect_logs_from_logfile ;; let output := output ++ s in
  call (PrintOut output).

Definition main : prog unit := print_environment_info.

End Troubleshooter.

(* ===================================================================== *)
(** ** A concrete host *)
(* ===================================================================== *)

(** A machine whose answers do not change over time: what is on the
    search path, what each shell command prints and how many seconds it
    takes ([None]: it never ends), the environment and the text files.
    [printed] collects what [print] wrote to standard output. *)
Record host : Type :=
  { tty : bool;
    size : terminal_size;
    search_path : string -> option string;
    shell : string -> option (nat * CompletedProcess);
    system : string;
    release : string;
    platform : string;
    environ : string -> option string;
    files : string -> option string;
    printed : list string }.

Definition host_print (h : host) (text : string) : host :=
  {| tty := tty h; size := size h; search_path := search_path h;
     shell := shell h; system := system h; release := release h;
     platform := platform h; environ := environ h; files := files h;
     printed := append (printed h) (text ++ PyStr.nl) |}.

Definition host_spawn (h : host) (cmd : string) (timeout : nat)
  : child_status :=
  match shell h cmd with
  | Some (seconds, cp) => if seconds <? timeout then Exited cp else StillRunning
  | None => StillRunning
  end.

Definition host_respond (r : request) (h : host) : reply r * host :=
  match r return reply r * host with
  | StdoutIsatty => (tty h, h)
  | GetTerminalSize => (size h, h)
  | Which name => (search_path h name, h)
  | SpawnShell cmd timeout => (host_spawn h cmd timeout, h)
  | PlatformSystem => (system h, h)
  | PlatformRelease => (release h, h)
  | PlatformPlatform => (platform h, h)
  | EnvironGet key => (environ h key, h)
  | PathExists path =>
      (match files h path with Some _ => true | None => false end, h)
  | ReadText path =>
      (match files h path with
       | Some t => Returned t
       | None => Raised OSError
       end, h)
  | PrintOut text => (tt, host_print h text)
  end.

(** A Linux machine with Python and Jupyter but neither MATLAB nor conda,
    writing to a pipe. *)
Definition linux_search_path (name : string) : option string :=
  if (name =? "python")%string then Some "/usr/bin/python"
  else if (name =? "python3")%string then Some "/usr/bin/python3"
  else if (name =? "pip")%string then Some "/usr/bin/pip"
  else if (name =? "jupyter")%string then Some "/usr/bin/jupyter"
  else None.

Definition linux_shell (cmd : string) : option (nat * CompletedProcess) :=
  if (cmd =? "python --version")%string then
    Some (0, {| returncode := 0%Z;
                stdout := "Python 3.10.4" ++ PyStr.nl; stderr := "" |})
  else if (cmd =? "python3 --version")%string then
    Some (0, {| returncode := 0%Z;
                stdout := "Python 3.10.4" ++ PyStr.nl; stderr := "" |})
  else if (cmd =? "pip --version")%string then
    Some (1, {| returncode := 0%Z;
                stdout := "pip 22.0.2" ++ PyStr.nl; stderr := "" |})
  else if (cmd =? "uname -v")%string then
    Some (0, {| returncode := 0%Z;
                stdout := "#1 SMP" ++ PyStr.nl; stderr := "" |})
  else if (cmd =? "echo hello")%string then
    Some (0, {| returncode := 0%Z;
                stdout := "hello" ++ PyStr.nl; stderr := "" |})
  else if (cmd =? "false")%string then
    Some (0, {| returncode := 1%Z; stdout := ""; stderr := "" |})
  else if (cmd =? "echo warn >&2")%string then
    Some (0, {| returncode := 0%Z;
                stdout := ""; stderr := "warn" ++ PyStr.nl |})
  else if (cmd =? "conda env list")%string then
    Some (0, {| returncode := 127%Z; stdout := "";
                stderr := "/bin/sh: 1: conda: not found" ++ PyStr.nl |})
  else if (cmd =? "sleep 20")%string then
    Some (20, {| returncode := 0%Z; stdout := ""; stderr := "" |})
  else Some (0, {| returncode := 0%Z; stdout := ""; stderr := "" |}).

Definition linux_pipe : host :=
  {| tty := false;
     size := {| columns := 80; lines := 24 |};
     search_path := linux_search_path;
     shell := linux_shell;
     system := "Linux";
     release := "6.1.0";
     platform := "Linux-6.1.0-x86_64";
     environ := fun _ => None;
     files := fun _ => None;
     printed := [] |}.

(** The same machine at a terminal of the given width. *)
Definition linux_terminal (cols : nat) : host :=
  {| tty := true;
     size := {| columns := cols; lines := 24 |};
     search_path := linux_search_path;
     shell := linux_shell;
     system := "Linux";
     release := "6.1.0";
     platform := "Linux-6.1.0-x86_64";
     environ := fun _ => None;
     files := fun _ => None;
     printed := [] |}.

(** The same machine with [MWI_LOG_FILE] naming a file that is not there. *)
Definition linux_stale_log : host :=
  {| tty := false;
     size := {| columns := 80; lines := 24 |};
     search_path := linux_search_path;
     shell := linux_shell;
     system := "Linux";
     release := "6.1.0";
     platform := "Linux-6.1.0-x86_64";
     environ := fun key =>
       if (key =? "MWI_LOG_FILE")%string then Some "/tmp/mwi.log" else None;
     files := fun _ => None;
     printed := [] |}.

Definition on_host {A : Type} (p : prog A) (h : host)
  : outcome A * host * list request := run host_respond p h.

(** The same machine, where starting the Python interpreter hangs. *)
Definition linux_slow_python : host :=
  {| tty := false;
     size := {| columns := 80; lines := 24 |};
     search_path := linux_search_path;
     shell := fun cmd =>
       if (cmd =? "python --version")%string then None else linux_shell cmd;
     system := "Linux";
     release := "6.1.0";
     platform := "Linux-6.1.0-x86_64";
     environ := fun _ => None;
     files := fun _ => None;
     printed := [] |}.

(* ===================================================================== *)
(** ** Vocabulary of the statements *)
(* ===================================================================== *)

(** Every request a program can make satisfies [P], whatever the host
    answers. *)
Inductive only_asks (P : request -> Prop) {A : Type} : prog A -> Prop :=
| only_asks_ret (a : A) : only_asks P (Ret a)
| only_asks_raise (e : exn_class) : only_asks P (Raise e)
| only_asks_ask (r : request) (k : reply r -> prog A) :
    P r -> (forall x, only_asks P (k x)) -> only_asks P (Ask r k).

Definition is_print (r : request) : bool :=
  match r with PrintOut _ => true | _ => false end.

Definition is_spawn (r : request) : bool :=
  match r with SpawnShell _ _ => true | _ => false end.

Definition is_geometry_query (r : request) : bool :=
  match r with GetTerminalSize => true | _ => false end.

(** A program that never prints. *)
Definition silent {A : Type} (p : prog A) : Prop :=
  only_asks (fun r => is_print r = false) p.

(** The text blocks, each one on a line of its own. *)
Fixpoint one_per_line (text_arr : list string) : string :=
  match text_arr with
  | [] => ""
  | text :: rest => text ++ PyStr.nl ++ one_per_line rest
  end.

(** [output] is [None]. *)
Definition output_absent (r : cmd_output) : bool :=
  match output r with None => true | Some _ => false end.

(** The value of [error] in [process_output] after the loop has gone
    through [results]. *)
Definition error_after (os_name : string) (suppress_suggestions : bool)
  (results : list cmd_output) : bool :=
  snd (fst (process_output_loop os_name suppress_suggestions results)).

(** The sections of the report in the order of the statements of
    [print_environment_info]. *)
Definition report_sections (os_name : string) : list (prog string) :=
  [list_matlab os_name; list_matlab_proxy_on_path os_name;
   list_jupyter_executable os_name; check_python_and_pip_installed os_name;
   os_info os_name; list_conda_related_information os_name;
   list_installed_packages os_name; list_server_extensions os_name;
   list_env_vars os_name; collect_logs_from_logfile].

(** The order the specification gives for the report driver: OS
    information, Python and pip, the presence of conda with its version, the
    package list, the conda environments, the MATLAB lookup, the
    matlab-proxy-app lookup, the three extension lists, the environment
    variables and the log file, written out by one [print].  The conda
    part of the source is cut in two for it. *)
Definition conda_presence_with_version (os_name : string) : prog string :=
  header <- generate_header "Conda information" ;;
  outputs <- find_executable_and_version os_name "conda" true ;;
  Ret (header ++ PyStr.join "" (map Report_str outputs)).

Definition conda_environment_listing (os_name : string) : prog string :=
  env_list <- process_output os_name exec_command true ["conda env list"] ;;
  Ret (Report_str env_list).

Definition specified_sections (os_name : string) : list (prog string) :=
  [os_info os_name; check_python_and_pip_installed os_name;
   conda_presence_with_version os_name; list_installed_packages os_name;
   conda_environment_listing os_name; list_matlab os_name;
   list_matlab_proxy_on_path os_name; list_server_extensions os_name;
   list_env_vars os_name; collect_logs_from_logfile].

Definition specified_report (os_name : string) : prog unit :=
  sections <- list_comp (fun section => section) (specified_sections os_name) ;;
  call (PrintOut (PyStr.join "" sections)).

(** What a program has printed when it is run on a host that had printed
    nothing. *)
Definition printed_by (p : prog unit) (h : host) : list string :=
  printed (snd (fst (on_host p h))).

(** The texts of the sections of the report on a host, and the requests
    they make. *)
Definition section_texts (os_name : string) (h : host) : list string :=
  match
    fst (fst (on_host (list_comp (fun section => section)
                         (report_sections os_name)) h))
  with
  | Returned texts => texts
  | Raised _ => []
  end.

Definition section_requests (os_name : string) (h : host) : list request :=
  snd (on_host (list_comp (fun section => section)
                  (report_sections os_name)) h).

(** The header of a section as a host renders it. *)
Definition header_on (h : host) (title : string) : string :=
  match fst (fst (on_host (generate_header title) h)) with
  | Returned header => header
  | Raised _ => ""
  end.

(** The log file is missing at host [w]: the variable [MWI_LOG_FILE] is
    unset, or the path it holds does not exist.  [w'] is the host after
    these questions and [tr] lists them. *)
Definition log_file_missing {W : Type}
  (respond : forall r : request, W -> reply r * W)
  (w w' : W) (tr : list request) : Prop :=
  (respond (EnvironGet "MWI_LOG_FILE") w = (None, w')
   /\ tr = [EnvironGet "MWI_LOG_FILE"])
  \/ (exists (path : string) (w1 : W),
        respond (EnvironGet "MWI_LOG_FILE") w = (Some path, w1)
        /\ respond (PathExists path) w1 = (false, w')
        /\ tr = [EnvironGet "MWI_LOG_FILE"; PathExists path]).


(** The request [exec_command] makes for a command. *)
Definition spawn (cmd : string) : request := SpawnShell cmd 10.

(** The recommendation [process_output] writes for a command. *)
Definition recommendation_for (name : string) : string :=
  "Recommendation: " ++ name ++ " is not installed. Please install "
  ++ name ++ "." ++ PyStr.nl.

(** Every character of a string passes the test. *)
Fixpoint all_chars (f : ascii -> bool) (s : string) : bool :=
  match s with
  | EmptyString => true
  | String c r => f c && all_chars f r
  end.

(** The first and the last character of a string. *)
Definition first_char (s : string) : option ascii :=
  match s with
  | EmptyString => None
  | String c _ => Some c
  end.

Fixpoint last_char (s : string) : option ascii :=
  match s with
  | EmptyString => None
  | String c EmptyString => Some c
  | String _ r => last_char r
  end.

(** A string that neither begins nor ends with whitespace. *)
Definition trimmed (s : string) : Prop :=
  (forall c, first_char s = Some c -> PyStr.isspace c = false)
  /\ (forall c, last_char s = Some c -> PyStr.isspace c = false).

(** The Linux machine with a log file of two lines. *)
Definition linux_with_log : host :=
  {| tty := false;
     size := {| columns := 80; lines := 24 |};
     search_path := linux_search_path;
     shell := linux_shell;
     system := "Linux";
     release := "6.1.0";
     platform := "Linux-6.1.0-x86_64";
     environ := fun key =>
       if (key =? "MWI_LOG_FILE")%string then Some "/tmp/mwi.log" else None;
     files := fun path =>
       if (path =? "/tmp/mwi.log")%string
       then Some ("starting" ++ PyStr.nl ++ "ready" ++ PyStr.nl)
       else None;
     printed := [] |}.

(** The Linux machine where every command prints a blank on stderr. *)
Definition linux_blank : host :=
  {| tty := false;
     size := {| columns := 80; lines := 24 |};
     search_path := linux_search_path;
     shell := fun _ =>
       Some (0, {| returncode := 0%Z; stdout := ""; stderr := " " |});
     system := "Linux";
     release := "6.1.0";
     platform := "Linux-6.1.0-x86_64";
     environ := fun _ => None;
     files := fun _ => None;
     printed := [] |}.

(** The Linux machine where the log file is there but cannot be read. *)
Definition unreadable_log_respond (r : request) (h : host) : reply r * host :=
  match r return reply r * host with
  | PathExists path => ((path =? "/tmp/mwi.log")%string, h)
  | ReadText path => (Raised OSError, h)
  | r' => host_respond r' h
  end.

(** The line a finished command contributes to the report: its two
    trimmed streams and a newline. *)
Definition command_line (cp : CompletedProcess) : string :=
  PyStr.strip (stdout cp) ++ PyStr.strip (stderr cp) ++ PyStr.nl.


(* ===================================================================== *)
(** ** Running programs: general facts *)
(* ===================================================================== *)

Section RunFacts.

Variable W : Type.
Variable respond : forall r : request, W -> reply r * W.

Lemma run_bind {A B : Type} (p : prog A) (f : A -> prog B) (w : W) :
  run respond (bind p f) w =
  let '(o, w1, t1) := run respond p w in
  match o with
  | Returned a =>
      let '(o2, w2, t2) := run respond (f a) w1 in (o2, w2, (t1 ++ t2)%list)
  | Raised e => (Raised e, w1, t1)
  end.
Proof.
  revert w. induction p as [a | e | r k IH]; intros w; simpl.
  - destruct (run respond (f a) w) as [[o2 w2] t2]. reflexivity.
  - reflexivity.
  - destruct (respond r w) as [x w1]. rewrite IH.
    destruct (run respond (k x) w1) as [[o w2] t1].
    destruct o as [a | e]; [| reflexivity].
    destruct (run respond (f a) w2) as [[o2 w3] t2]. reflexivity.
Qed.

Lemma run_bind_returned {A B : Type} (p : prog A) (f : A -> prog B)
  (w w1 : W) (a : A) (t1 : list request) :
  run respond p w = (Returned a, w1, t1) ->
  run respond (bind p f) w =
  let '(o2, w2, t2) := run respond (f a) w1 in (o2, w2, (t1 ++ t2)%list).
Proof. intros H. rewrite run_bind, H. reflexivity. Qed.

Lemma run_bind_raised {A B : Type} (p : prog A) (f : A -> prog B)
  (w w1 : W) (e : exn_class) (t1 : list request) :
  run respond p w = (Raised e, w1, t1) ->
  run respond (bind p f) w = (Raised e, w1, t1).
Proof. intros H. rewrite run_bind, H. reflexivity. Qed.

Lemma run_bind_ret {A B : Type} (p : prog A) (g : A -> B)
  (w w1 : W) (a : A) (t1 : list request) :
  run respond p w = (Returned a, w1, t1) ->
  run respond (bind p (fun x => Ret (g x))) w = (Returned (g a), w1, t1).
Proof.
  intros H. rewrite (run_bind_returned _ _ _ _ _ _ H). simpl.
  rewrite app_nil_r. reflexivity.
Qed.

(** The requests of a program that only asks [P] all satisfy [P]. *)
Lemma only_asks_trace (P : request -> Prop) {A : Type} (p : prog A) :
  only_asks P p ->
  forall w, Forall P (snd (run respond p w)).
Proof.
  induction 1 as [a | e | r k HP Hk IH]; intros w; simpl.
  - constructor.
  - constructor.
  - destruct (respond r w) as [x w1]. specialize (IH x w1).
    destruct (run respond (k x) w1) as [[o w2] t]. simpl in *.
    constructor; assumption.
Qed.

End RunFacts.

Lemma only_asks_bind (P : request -> Prop) {A B : Type}
  (p : prog A) (f : A -> prog B) :
  only_asks P p -> (forall a, only_asks P (f a)) -> only_asks P (bind p f).
Proof.
  intros Hp Hf. induction Hp as [a | e | r k HP Hk IH]; simpl.
  - apply Hf.
  - constructor.
  - constructor; assumption.
Qed.

Lemma only_asks_call (P : request -> Prop) (r : request) :
  P r -> only_asks P (call r).
Proof. intros H. constructor; [assumption | intros x; constructor]. Qed.

Lemma only_asks_try_except (P : request -> Prop) {A : Type}
  (p h : prog A) (cls : exn_class) :
  only_asks P p -> only_asks P h -> only_asks P (try_except p cls h).
Proof.
  intros Hp Hh. induction Hp as [a | e | r k HP Hk IH]; simpl.
  - constructor.
  - destruct (issubclass e cls); [assumption | constructor].
  - constructor; assumption.
Qed.

Lemma only_asks_for_each (P : request -> Prop) {A S : Type}
  (l : list A) (body : A -> S -> prog S) :
  (forall x s, only_asks P (body x s)) ->
  forall s, only_asks P (for_each l body s).
Proof.
  intros Hb. induction l as [| x t IH]; intros s; simpl.
  - constructor.
  - apply only_asks_bind; [apply Hb | apply IH].
Qed.

Lemma only_asks_list_comp (P : request -> Prop) {A B : Type}
  (f : A -> prog B) (l : list A) :
  (forall x, only_asks P (f x)) -> only_asks P (list_comp f l).
Proof.
  intros Hf. induction l as [| x t IH]; simpl.
  - constructor.
  - apply only_asks_bind; [apply Hf | intros y].
    apply only_asks_bind; [apply IH | intros ys; constructor].
Qed.

(* ===================================================================== *)
(** ** Probe runner *)
(* ===================================================================== *)

Section ProbeRunner.

Variable os_name : string.
Variable W : Type.
Variable respond : forall r : request, W -> reply r * W.

Lemma run_subprocess_run_exited (cmd : string) (timeout : nat)
  (cp : CompletedProcess) (w w1 : W) :
  respond (SpawnShell cmd timeout) w = (Exited cp, w1) ->
  run respond (subprocess_run cmd timeout) w
  = (Returned cp, w1, [SpawnShell cmd timeout]).
Proof. intros H. unfold subprocess_run. simpl. rewrite H. reflexivity. Qed.

Lemma run_subprocess_run_expired (cmd : string) (timeout : nat) (w w1 : W) :
  respond (SpawnShell cmd timeout) w = (StillRunning, w1) ->
  run respond (subprocess_run cmd timeout) w
  = (Raised TimeoutExpired, w1, [SpawnShell cmd timeout]).
Proof. intros H. unfold subprocess_run. simpl. rewrite H. reflexivity. Qed.

(** A command that ends in time gives one result, made of the two trimmed
    streams, flagged by the raw [stderr] alone. *)
Lemma run_exec_command_exited (cmd : string) (cp : CompletedProcess)
  (w w1 : W) :
  respond (SpawnShell cmd 10) w = (Exited cp, w1) ->
  run respond (exec_command [cmd]) w
  = (Returned
       [new_cmd_only_output cmd
          (Some (PyStr.strip (stdout cp) ++ PyStr.strip (stderr cp)))
          (negb (stderr cp =? "")%string)],
     w1, [SpawnShell cmd 10]).
Proof.
  intros H. unfold exec_command. simpl. rewrite H. simpl.
  destruct (stderr cp =? "")%string; reflexivity.
Qed.

(** A command that is still running after ten seconds makes
    [exec_command] raise: the handler is for the builtin [TimeoutError],
    which [subprocess.TimeoutExpired] is not. *)
Lemma run_exec_command_expired (cmd : string) (w w1 : W) :
  respond (SpawnShell cmd 10) w = (StillRunning, w1) ->
  run respond (exec_command [cmd]) w
  = (Raised TimeoutExpired, w1, [SpawnShell cmd 10]).
Proof. intros H. unfold exec_command. simpl. rewrite H. reflexivity. Qed.

Lemma run_find_executable (name : string) (path : option string)
  (w w1 : W) :
  respond (Which name) w = (path, w1) ->
  run respond (find_executable [name]) w
  = (Returned [new_cmd_output name path
                 (match path with None => true | Some _ => false end)],
     w1, [Which name]).
Proof. intros H. unfold find_executable. simpl. rewrite H. reflexivity. Qed.

(** C4: for a shell command that completes within the timeout, the result
    of [exec_command] has [isError = false] exactly when the command wrote
    nothing to stderr.  The result is built from the two captured streams
    only, so the exit code plays no part: with an empty stderr the flag is
    false whatever the exit code, with a non-empty stderr it is true
    whatever the exit code. *)
Theorem exec_command_error_iff_stderr (cmd : string)
  (cp : CompletedProcess) (w w1 : W) :
  respond (SpawnShell cmd 10) w = (Exited cp, w1) ->
  exists r : cmd_output,
    run respond (exec_command [cmd]) w
    = (Returned [r], w1, [SpawnShell cmd 10])
    /\ r = new_cmd_only_output cmd
             (Some (PyStr.strip (stdout cp) ++ PyStr.strip (stderr cp)))
             (negb (stderr cp =? "")%string)
    /\ (isError r = false <-> stderr cp = "")
    /\ (isError r = true <-> stderr cp <> "").
Proof.
  intros H. eexists. split; [apply run_exec_command_exited, H |].
  split; [reflexivity |]. simpl.
  destruct (String.eqb_spec (stderr cp) "") as [E | E]; simpl.
  - split; split; intros; try reflexivity; try assumption; try discriminate.
    contradiction.
  - split; split; intros; try reflexivity; try assumption; try discriminate.
    contradiction.
Qed.

End ProbeRunner.

(** C4 at work: [false] exits with status 1 and prints nothing. *)
Lemma exec_command_error_iff_stderr_witness :
  exists r : cmd_output,
    run host_respond (exec_command ["false"]) linux_pipe
    = (Returned [r], linux_pipe, [SpawnShell "false" 10])
    /\ r = new_cmd_only_output "false"
             (Some (PyStr.strip "" ++ PyStr.strip ""))
             (negb ("" =? "")%string)
    /\ (isError r = false <-> "" = "")
    /\ (isError r = true <-> "" <> "").
Proof.
  apply (exec_command_error_iff_stderr host host_respond "false"
           {| returncode := 1%Z; stdout := ""; stderr := "" |}
           linux_pipe linux_pipe).
  reflexivity.
Defined.

(** C2 on a concrete machine: [sleep 20] is still running after the ten
    seconds it is given.  [subprocess.run] raises [TimeoutExpired], which
    is no subclass of the [TimeoutError] that [exec_command] catches, and
    the exception leaves [exec_command]: no result is produced. *)
Theorem exec_command_sleep_20_raises :
  host_spawn linux_pipe "sleep 20" 10 = StillRunning
  /\ issubclass TimeoutExpired TimeoutError = false
  /\ on_host (exec_command ["sleep 20"]) linux_pipe
     = (Raised TimeoutExpired, linux_pipe, [SpawnShell "sleep 20" 10]).
Proof. repeat split. Qed.

(* ===================================================================== *)
(** ** Strings *)
(* ===================================================================== *)

Lemma append_assoc (a b c : string) : (a ++ b) ++ c = a ++ (b ++ c).
Proof. induction a as [| x a IH]; simpl; [reflexivity | now rewrite IH]. Qed.

Lemma append_nil_r (a : string) : a ++ "" = a.
Proof. induction a as [| x a IH]; simpl; [reflexivity | now rewrite IH]. Qed.

Lemma length_repeat_char (c : ascii) (n : nat) :
  PyStr.len (PyStr.repeat_char c n) = n.
Proof. induction n as [| n IH]; simpl; [reflexivity | now rewrite IH]. Qed.

(* ===================================================================== *)
(** ** Result classifier *)
(* ===================================================================== *)

Section Classifier.

Variable os_name : string.
Variable W : Type.
Variable respond : forall r : request, W -> reply r * W.

(** [error] only ever goes from false to true, and it does so at the
    results without an output. *)
Lemma error_fold (suppress : bool) (results : list cmd_output)
  (st : locals) :
  snd (fst (fold_left (process_output_step os_name suppress) results st))
  = snd (fst st) || existsb output_absent results.
Proof.
  revert st. induction results as [| r rs IH]; intros [[b e] rec]; simpl.
  - now rewrite orb_false_r.
  - rewrite IH. unfold output_absent. simpl.
    destruct (output r); simpl; [reflexivity |].
    now rewrite orb_true_r.
Qed.

Lemma error_after_spec (suppress : bool) (results : list cmd_output) :
  error_after os_name suppress results = existsb output_absent results.
Proof. unfold error_after, process_output_loop. now rewrite error_fold. Qed.

(** The recommendation is only written under [error] and without
    suppression. *)
Lemma recommendation_fold (suppress : bool) (results : list cmd_output)
  (st : locals) :
  (snd (fst st) = false -> snd st = "") ->
  (suppress = true -> snd st = "") ->
  let st' := fold_left (process_output_step os_name suppress) results st in
  (snd (fst st') = false -> snd st' = "")
  /\ (suppress = true -> snd st' = "").
Proof.
  revert st. induction results as [| r rs IH]; intros [[b e] rec] H1 H2.
  - simpl in *. split; assumption.
  - simpl fold_left. apply IH; simpl in *.
    + destruct (output r); simpl.
      * destruct e; simpl; [discriminate | intros _; now apply H1].
      * discriminate.
    + intros ->. rewrite andb_false_r. now apply H2.
Qed.

(** [process_output] asks what [func] asks, and builds the report from the
    locals the loop ends with. *)
Lemma run_process_output (func : list string -> prog (list cmd_output))
  (suppress : bool) (args : list string) (w w1 : W)
  (results : list cmd_output) (tr : list request) :
  run respond (func args) w = (Returned results, w1, tr) ->
  run respond (process_output os_name func suppress args) w
  = (Returned {| body := fst (fst (process_output_loop os_name suppress results));
                 recommendations := snd (process_output_loop os_name suppress results);
                 has_error := snd (fst (process_output_loop os_name suppress results)) |},
     w1, tr).
Proof.
  intros H. unfold process_output.
  rewrite (run_bind_returned _ _ _ _ _ _ _ _ H).
  destruct (process_output_loop os_name suppress results) as [[b e] rec]. simpl.
  now rewrite app_nil_r.
Qed.

Lemma run_process_output_raised
  (func : list string -> prog (list cmd_output))
  (suppress : bool) (args : list string) (w w1 : W)
  (e : exn_class) (tr : list request) :
  run respond (func args) w = (Raised e, w1, tr) ->
  run respond (process_output os_name func suppress args) w
  = (Raised e, w1, tr).
Proof. intros H. unfold process_output. now apply run_bind_raised. Qed.

(** Executable lookup flags exactly the names it finds no path for. *)
Lemma find_executable_flags (args : list string) :
  forall (acc : list cmd_output) (w w1 : W) (results : list cmd_output)
         (tr : list request),
    Forall (fun r => isError r = output_absent r) acc ->
    run respond
      (for_each args
         (fun name output =>
            path <- call (Which name) ;;
            Ret (append output
                   (new_cmd_output name path
                      (match path with None => true | Some _ => false end))))
         acc) w
    = (Returned results, w1, tr) ->
    Forall (fun r => isError r = output_absent r) results.
Proof.
  induction args as [| name rest IH]; intros acc w w1 results tr Hacc H.
  - simpl in H. injection H as <- _ _. assumption.
  - simpl in H. destruct (respond (Which name) w) as [path w2]. simpl in H.
    match type of H with
    | context [run respond ?p w2] =>
        destruct (run respond p w2) as [[o w3] t] eqn:E
    end.
    injection H as -> _ _.
    refine (IH _ _ _ _ _ _ E).
    unfold append. apply Forall_app. split; [assumption |].
    constructor; [| constructor].
    destruct path; reflexivity.
Qed.

Lemma find_executable_isError (args : list string) (w w1 : W)
  (results : list cmd_output) (tr : list request) :
  run respond (find_executable args) w = (Returned results, w1, tr) ->
  Forall (fun r => isError r = output_absent r) results.
Proof. apply find_executable_flags. constructor. Qed.

(** Command execution always stores a string as output, also when it sets
    the error flag. *)
Lemma exec_command_stores_output (args : list string) :
  forall (acc : list cmd_output) (w w1 : W) (results : list cmd_output)
         (tr : list request),
    Forall (fun r => output_absent r = false) acc ->
    run respond
      (for_each args
         (fun cmd output =>
            try_except
              (completed_process <- subprocess_run cmd 10 ;;
               Ret (append output
                      (new_cmd_only_output cmd
                         (Some (PyStr.strip (stdout completed_process)
                                ++ PyStr.strip (stderr completed_process)))
                         (if negb (stderr completed_process =? "")%string
                          then true else false))))
              TimeoutError
              (Ret (append output
                      (new_cmd_only_output cmd
                         (Some (cmd ++ " command timed out!")) true))))
         acc) w
    = (Returned results, w1, tr) ->
    Forall (fun r => output_absent r = false) results.
Proof.
  induction args as [| cmd rest IH]; intros acc w w1 results tr Hacc H.
  - simpl in H. injection H as <- _ _. assumption.
  - simpl in H. destruct (respond (SpawnShell cmd 10) w) as [st w2].
    destruct st as [cp |]; simpl in H; [| discriminate].
    match type of H with
    | context [run respond ?p w2] =>
        destruct (run respond p w2) as [[o w3] t] eqn:E
    end.
    injection H as -> _ _.
    refine (IH _ _ _ _ _ _ E).
    unfold append. apply Forall_app. split; [assumption |].
    constructor; [reflexivity | constructor].
Qed.

Lemma exec_command_output_present (args : list string) (w w1 : W)
  (results : list cmd_output) (tr : list request) :
  run respond (exec_command args) w = (Returned results, w1, tr) ->
  Forall (fun r => output_absent r = false) results.
Proof. apply exec_command_stores_output. constructor. Qed.

Lemma existsb_ext_in {A : Type} (f g : A -> bool) (l : list A) :
  Forall (fun x => f x = g x) l -> existsb f l = existsb g l.
Proof.
  induction 1 as [| x l Hx _ IH]; simpl; [reflexivity |].
  now rewrite Hx, IH.
Qed.

Lemma existsb_all_false {A : Type} (f : A -> bool) (l : list A) :
  Forall (fun x => f x = false) l -> existsb f l = false.
Proof.
  induction 1 as [| x l Hx _ IH]; simpl; [reflexivity |].
  now rewrite Hx, IH.
Qed.

(** C1, amended: whenever the probe function returns its results,
    [process_output] returns a report, having asked the host nothing more;
    its [has_error] is true exactly when some result has no output
    ([output is None]).  The flag is sticky: if it is set after a first part
    of the results, it is set in the report.  When the probe function is
    [find_executable], this is exactly when some result has [isError] set;
    when it is [exec_command], every result carries an output string and
    [has_error] is false, whatever the [isError] of the results. *)
Theorem process_output_has_error
  (func : list string -> prog (list cmd_output)) (suppress : bool)
  (args : list string) (w w1 : W) (results : list cmd_output)
  (tr : list request) :
  run respond (func args) w = (Returned results, w1, tr) ->
  exists rep : Report,
    run respond (process_output os_name func suppress args) w
    = (Returned rep, w1, tr)
    /\ has_error rep = existsb output_absent results
    /\ (forall before after : list cmd_output,
          results = (before ++ after)%list ->
          error_after os_name suppress before = true ->
          has_error rep = true)
    /\ (func = find_executable -> has_error rep = existsb isError results)
    /\ (func = exec_command -> has_error rep = false).
Proof.
  intros H. eexists. split; [apply run_process_output, H |]. simpl.
  fold (error_after os_name suppress results).
  rewrite error_after_spec.
  split; [reflexivity |]. split; [| split].
  - intros before after -> Hb. rewrite error_after_spec in Hb.
    rewrite existsb_app, Hb. reflexivity.
  - intros ->. symmetry. apply existsb_ext_in.
    exact (find_executable_isError _ _ _ _ _ H).
  - intros ->. apply existsb_all_false.
    exact (exec_command_output_present _ _ _ _ _ H).
Qed.

(** C5: whenever [process_output] returns a report (it does as soon as the
    probe function returns), the recommendation is empty if [has_error] is
    false, and it is empty if the caller suppressed the suggestions, also
    when [has_error] is true. *)
Theorem process_output_recommendation_empty
  (func : list string -> prog (list cmd_output)) (suppress : bool)
  (args : list string) (w w1 : W) (results : list cmd_output)
  (tr : list request) :
  run respond (func args) w = (Returned results, w1, tr) ->
  exists rep : Report,
    run respond (process_output os_name func suppress args) w
    = (Returned rep, w1, tr)
    /\ (has_error rep = false -> recommendations rep = "")
    /\ (suppress = true -> recommendations rep = "").
Proof.
  intros H. eexists. split; [apply run_process_output, H |]. simpl.
  apply (recommendation_fold suppress results ("", false, ""));
    intros _; reflexivity.
Qed.

(** A failing probe with the suggestions shown names the last command. *)
Lemma run_process_output_not_found (name : string) (w w1 : W) :
  respond (Which name) w = (None, w1) ->
  run respond (process_output os_name find_executable false [name]) w
  = (Returned
       {| body := name ++ " - None - " ++ RED_X os_name ++ PyStr.nl;
          recommendations :=
            "Recommendation: " ++ name
            ++ " is not installed. Please install " ++ name ++ "."
            ++ PyStr.nl;
          has_error := true |},
     w1, [Which name]).
Proof.
  intros H.
  rewrite (run_process_output _ _ _ _ _ _ _ (run_find_executable _ _ _ _ _ _ H)).
  reflexivity.
Qed.

(** *** Lookup followed by the version probe *)

(** X12: A name that is not on the search path gives the lookup report alone,
    and nothing but the lookup is asked of the host: no command is run. *)
Lemma find_executable_and_version_missing (cmd : string) (suppress : bool)
  (w w1 : W) :
  respond (Which cmd) w = (None, w1) ->
  exists rep : Report,
    run respond (find_executable_and_version os_name cmd suppress) w
    = (Returned [rep], w1, [Which cmd])
    /\ has_error rep = true
    /\ run respond (process_output os_name find_executable suppress [cmd]) w
       = (Returned rep, w1, [Which cmd])
    /\ Forall (fun r => is_spawn r = false)
         (snd (run respond
                 (find_executable_and_version os_name cmd suppress) w)).
Proof.
  intros H.
  pose proof (run_process_output find_executable suppress [cmd] _ _ _ _
                (run_find_executable _ _ _ _ _ _ H)) as Hrep.
  assert (Hrun : run respond
                   (find_executable_and_version os_name cmd suppress) w
                 = (Returned
                      [{| body := fst (fst (process_output_loop os_name
                             suppress [new_cmd_output cmd None true]));
                          recommendations := snd (process_output_loop os_name
                             suppress [new_cmd_output cmd None true]);
                          has_error := snd (fst (process_output_loop os_name
                             suppress [new_cmd_output cmd None true])) |}],
                    w1, [Which cmd])).
  { unfold find_executable_and_version.
    rewrite (run_bind_returned _ _ _ _ _ _ _ _ Hrep). reflexivity. }
  eexists. split; [exact Hrun |]. split; [reflexivity |].
  split; [exact Hrep |].
  rewrite Hrun. repeat constructor.
Qed.

(** X13: A name that is found, whose version command ends in time, gives the
    lookup report followed by the report of the version command. *)
Lemma find_executable_and_version_found (cmd path : string)
  (suppress : bool) (cp : CompletedProcess) (w w1 w2 : W) :
  respond (Which cmd) w = (Some path, w1) ->
  respond (SpawnShell (cmd ++ " --version") 10) w1 = (Exited cp, w2) ->
  exists rep version : Report,
    run respond (find_executable_and_version os_name cmd suppress) w
    = (Returned [rep; version], w2,
       [Which cmd; SpawnShell (cmd ++ " --version") 10])
    /\ has_error rep = false
    /\ run respond (process_output os_name find_executable suppress [cmd]) w
       = (Returned rep, w1, [Which cmd])
    /\ run respond
         (process_output os_name exec_command suppress
            [cmd ++ " --version"]) w1
       = (Returned version, w2, [SpawnShell (cmd ++ " --version") 10]).
Proof.
  intros H1 H2. unfold find_executable_and_version.
  pose proof (run_process_output find_executable suppress [cmd] _ _ _ _
                (run_find_executable _ _ _ _ _ _ H1)) as Hrep.
  pose proof (run_process_output exec_command suppress
                [cmd ++ " --version"] _ _ _ _
                (run_exec_command_exited _ _ _ _ _ _ H2)) as Hver.
  eexists. eexists. split; [| split; [| split; [exact Hrep | exact Hver]]].
  - rewrite (run_bind_returned _ _ _ _ _ _ _ _ Hrep). simpl negb. cbv iota.
    rewrite (run_bind_returned _ _ _ _ _ _ _ _ Hver). reflexivity.
  - reflexivity.
Qed.

(** A name that is found, whose version command is still running after
    ten seconds: the exception of [exec_command] passes through. *)
Lemma find_executable_and_version_expired (cmd path : string)
  (suppress : bool) (w w1 w2 : W) :
  respond (Which cmd) w = (Some path, w1) ->
  respond (SpawnShell (cmd ++ " --version") 10) w1 = (StillRunning, w2) ->
  run respond (find_executable_and_version os_name cmd suppress) w
  = (Raised TimeoutExpired, w2,
     [Which cmd; SpawnShell (cmd ++ " --version") 10]).
Proof.
  intros H1 H2. unfold find_executable_and_version.
  pose proof (run_process_output find_executable suppress [cmd] _ _ _ _
                (run_find_executable _ _ _ _ _ _ H1)) as Hrep.
  pose proof (run_process_output_raised exec_command suppress
                [cmd ++ " --version"] _ _ _ _
                (run_exec_command_expired _ _ _ _ _ H2)) as Hver.
  rewrite (run_bind_returned _ _ _ _ _ _ _ _ Hrep). simpl negb. cbv iota.
  rewrite (run_bind_raised _ _ _ _ _ _ _ _ Hver). reflexivity.
Qed.

(** *** Rendered lines *)

(** C10: the line of an executable lookup is the command name, the path
    and the status icon ([RED_X] under [isError], [GREEN_OK] otherwise)
    joined by [" - "] and ended by a newline; the line of a shell command
    is its output and a newline, whatever the command string and the
    error flag are. *)
Theorem cmd_output_rendering :
  (forall (name : string) (path : option string) (err : bool),
      cmd_output_str os_name (new_cmd_output name path err)
      = PyStr.join " - "
          [name; PyStr.fmt path;
           if err then RED_X os_name else GREEN_OK os_name]
        ++ PyStr.nl)
  /\ (forall (name path : string),
        cmd_output_str os_name (new_cmd_output name (Some path) false)
        = name ++ " - " ++ path ++ " - " ++ GREEN_OK os_name ++ PyStr.nl)
  /\ (forall (cmd : string) (out : option string) (err : bool),
        cmd_output_str os_name (new_cmd_only_output cmd out err)
        = PyStr.fmt out ++ PyStr.nl)
  /\ (forall (cmd cmd' : string) (out : option string) (err err' : bool),
        cmd_output_str os_name (new_cmd_only_output cmd out err)
        = cmd_output_str os_name (new_cmd_only_output cmd' out err')).
Proof.
  split; [| split; [| split]].
  - intros name path err. unfold cmd_output_str, PyStr.join. simpl.
    repeat (rewrite append_assoc; simpl). reflexivity.
  - reflexivity.
  - reflexivity.
  - reflexivity.
Qed.

End Classifier.

(** C1 at work: MATLAB is not on the search path. *)
Lemma process_output_has_error_witness :
  exists rep : Report,
    run host_respond (process_output "posix" find_executable false ["matlab"])
      linux_pipe
    = (Returned rep, linux_pipe, [Which "matlab"])
    /\ has_error rep
       = existsb output_absent [new_cmd_output "matlab" None true]
    /\ (forall before after : list cmd_output,
          [new_cmd_output "matlab" None true] = (before ++ after)%list ->
          error_after "posix" false before = true ->
          has_error rep = true)
    /\ (find_executable = find_executable ->
        has_error rep = existsb isError [new_cmd_output "matlab" None true])
    /\ (find_executable = exec_command -> has_error rep = false).
Proof.
  apply (process_output_has_error "posix" host host_respond find_executable
           false ["matlab"] linux_pipe linux_pipe
           [new_cmd_output "matlab" None true] [Which "matlab"]).
  reflexivity.
Defined.

(** C1 as stated fails for commands: [echo warn >&2] writes to stderr, its
    result has [isError] set, and the report of [process_output] has
    [has_error] false. *)
Lemma process_output_misses_stderr_error :
  on_host (exec_command ["echo warn >&2"]) linux_pipe
  = (Returned [new_cmd_only_output "echo warn >&2" (Some "warn") true],
     linux_pipe, [SpawnShell "echo warn >&2" 10])
  /\ existsb isError [new_cmd_only_output "echo warn >&2" (Some "warn") true]
     = true
  /\ on_host (process_output "posix" exec_command false ["echo warn >&2"])
       linux_pipe
     = (Returned {| body := "warn" ++ PyStr.nl; recommendations := "";
                    has_error := false |},
        linux_pipe, [SpawnShell "echo warn >&2" 10]).
Proof. repeat split. Qed.

(** C5 at work: conda is looked up with the suggestions suppressed. *)
Lemma process_output_recommendation_empty_witness :
  exists rep : Report,
    run host_respond (process_output "posix" find_executable true ["conda"])
      linux_pipe
    = (Returned rep, linux_pipe, [Which "conda"])
    /\ (has_error rep = false -> recommendations rep = "")
    /\ (true = true -> recommendations rep = "").
Proof.
  apply (process_output_recommendation_empty "posix" host host_respond
           find_executable true ["conda"] linux_pipe linux_pipe
           [new_cmd_output "conda" None true] [Which "conda"]).
  reflexivity.
Defined.

(** C9 on a concrete machine: [python] is on the search path, but
    [python --version] is still running after ten seconds.  The exception
    that [exec_command] lets through on a timeout
    ends [find_executable_and_version] as well: no list is returned. *)
Theorem find_executable_and_version_slow_python_raises :
  search_path linux_slow_python "python" = Some "/usr/bin/python"
  /\ host_spawn linux_slow_python "python --version" 10 = StillRunning
  /\ on_host (find_executable_and_version "posix" "python" false)
       linux_slow_python
     = (Raised TimeoutExpired, linux_slow_python,
        [Which "python"; SpawnShell "python --version" 10]).
Proof. repeat split. Qed.

(* ===================================================================== *)
(** ** Renderer *)
(* ===================================================================== *)

Lemma fold_left_one_per_line (text_arr : list string) (acc : string) :
  fold_left (fun result text => result ++ text ++ PyStr.nl) text_arr acc
  = acc ++ one_per_line text_arr.
Proof.
  revert acc. induction text_arr as [| text rest IH]; intros acc; simpl.
  - now rewrite append_nil_r.
  - rewrite IH, append_assoc.
    change (String "010" (one_per_line rest))
      with (PyStr.nl ++ one_per_line rest).
    now rewrite append_assoc.
Qed.

Lemma too_wide_existsb (cols : nat) (text_arr : list string) :
  (exists text, In text text_arr /\ cols < PyStr.len text) ->
  existsb (fun text => cols <? PyStr.len text) text_arr = true.
Proof.
  intros [text [Hin Hlt]]. apply existsb_exists. exists text.
  split; [assumption | now apply Nat.ltb_lt].
Qed.

Section Renderer.

Variable W : Type.
Variable respond : forall r : request, W -> reply r * W.

(** C6: when standard output is not a terminal, [prettify] returns the
    text blocks joined by newlines between two lines of 28 [=] characters
    (an empty line before the first, a newline after the second), whatever
    the fill character is; the only thing it asks the host is whether
    standard output is a terminal, so the terminal geometry is not
    queried. *)
Theorem prettify_not_a_tty (boundary_filler : string)
  (text_arr : list string) (w w1 : W) :
  respond StdoutIsatty w = (false, w1) ->
  run respond (prettify boundary_filler text_arr) w
  = (Returned
       (PyStr.nl ++ PyStr.repeat_char "=" 28 ++ PyStr.nl
        ++ PyStr.join PyStr.nl text_arr
        ++ PyStr.nl ++ PyStr.repeat_char "=" 28 ++ PyStr.nl),
     w1, [StdoutIsatty])
  /\ Forall (fun r => is_geometry_query r = false)
       (snd (run respond (prettify boundary_filler text_arr) w)).
Proof.
  intros H. unfold prettify. simpl. rewrite H. simpl.
  split; [reflexivity |]. repeat constructor.
Qed.

(** C7: at a terminal, when some text block is longer than the terminal
    is wide, [prettify] returns every block followed by a newline and
    nothing else: no padding, no frame.  For a single block it is that
    block and a newline. *)
Theorem prettify_too_wide (boundary_filler : string)
  (text_arr : list string) (sz : terminal_size) (w w1 w2 : W) :
  respond StdoutIsatty w = (true, w1) ->
  respond GetTerminalSize w1 = (sz, w2) ->
  (exists text, In text text_arr /\ columns sz < PyStr.len text) ->
  run respond (prettify boundary_filler text_arr) w
  = (Returned (one_per_line text_arr), w2, [StdoutIsatty; GetTerminalSize])
  /\ (forall line : string,
        text_arr = [line] ->
        run respond (prettify boundary_filler text_arr) w
        = (Returned (line ++ PyStr.nl), w2,
           [StdoutIsatty; GetTerminalSize])).
Proof.
  intros Htty Hsize Hwide.
  assert (Hrun : run respond (prettify boundary_filler text_arr) w
                 = (Returned (one_per_line text_arr), w2,
                    [StdoutIsatty; GetTerminalSize])).
  { unfold prettify. simpl. rewrite Htty. simpl. rewrite Hsize.
    rewrite (too_wide_existsb _ _ Hwide). simpl.
    now rewrite fold_left_one_per_line. }
  split; [exact Hrun |].
  intros line ->. rewrite Hrun. reflexivity.
Qed.

(** With a fill of one character [prettify] always returns. *)
Lemma prettify_returns (c : ascii) (text_arr : list string) (w : W) :
  exists (text : string) (w1 : W) (tr : list request),
    run respond (prettify (String c "") text_arr) w = (Returned text, w1, tr).
Proof.
  unfold prettify. simpl.
  destruct (respond StdoutIsatty w) as [t w1].
  destruct t; simpl.
  - destruct (respond GetTerminalSize w1) as [sz w2].
    destruct (existsb _ text_arr); simpl.
    + eexists; eexists; eexists; reflexivity.
    + destruct text_arr; simpl; eexists; eexists; eexists; reflexivity.
  - eexists; eexists; eexists; reflexivity.
Qed.

Lemma generate_header_returns (title : string) (w : W) :
  exists (header : string) (w1 : W) (tr : list request),
    run respond (generate_header title) w = (Returned header, w1, tr).
Proof.
  destruct (prettify_returns "-" [title] w) as (text & w1 & tr & H).
  unfold generate_header. rewrite (run_bind_ret _ _ _ _ _ _ _ _ H).
  eexists; eexists; eexists; reflexivity.
Qed.

End Renderer.

(* ===================================================================== *)
(** ** Log collection *)
(* ===================================================================== *)

Section Logs.

Variable W : Type.
Variable respond : forall r : request, W -> reply r * W.

(** C8: the log section is the header of "matlab proxy logs" alone when
    the variable [MWI_LOG_FILE] is unset or names a path that does not
    exist: the header is always produced, [collect_logs_from_logfile]
    returns it with nothing after it, as a plain string (there is no error
    flag), and raises nothing; after the header it only asks for the
    variable and, when that is set, whether the path exists. *)
Theorem collect_logs_without_logfile (w w1 w2 : W)
  (rendered : outcome string) (tr1 tr2 : list request) :
  run respond (generate_header "matlab proxy logs") w = (rendered, w1, tr1) ->
  log_file_missing respond w1 w2 tr2 ->
  exists header : string,
    rendered = Returned header
    /\ run respond collect_logs_from_logfile w
       = (Returned header, w2, (tr1 ++ tr2)%list).
Proof.
  intros Hhdr Hmiss.
  destruct (generate_header_returns W respond "matlab proxy logs" w)
    as (header & w1' & tr1' & H).
  rewrite H in Hhdr. injection Hhdr as <- <- <-.
  exists header. split; [reflexivity |].
  unfold collect_logs_from_logfile.
  rewrite (run_bind_returned _ _ _ _ _ _ _ _ H).
  destruct Hmiss as [[Henv ->] | (path & w' & Henv & Hexists & ->)].
  - simpl. rewrite Henv. simpl. now rewrite append_nil_r.
  - simpl. rewrite Henv. simpl. rewrite Hexists. simpl.
    now rewrite append_nil_r.
Qed.

End Logs.

(** C6 at work: a header on a pipe. *)
Lemma prettify_not_a_tty_witness :
  run host_respond (prettify "-" ["OS information"]) linux_pipe
  = (Returned
       (PyStr.nl ++ PyStr.repeat_char "=" 28 ++ PyStr.nl
        ++ PyStr.join PyStr.nl ["OS information"]
        ++ PyStr.nl ++ PyStr.repeat_char "=" 28 ++ PyStr.nl),
     linux_pipe, [StdoutIsatty])
  /\ Forall (fun r => is_geometry_query r = false)
       (snd (run host_respond (prettify "-" ["OS information"]) linux_pipe)).
Proof.
  apply (prettify_not_a_tty host host_respond "-" ["OS information"]
           linux_pipe linux_pipe).
  reflexivity.
Defined.

(** C7 at work: a title of 26 characters at a terminal of 20 columns. *)
Lemma prettify_too_wide_witness :
  run host_respond (prettify "-" ["Python and pip executables"])
    (linux_terminal 20)
  = (Returned (one_per_line ["Python and pip executables"]),
     linux_terminal 20, [StdoutIsatty; GetTerminalSize])
  /\ (forall line : string,
        ["Python and pip executables"] = [line] ->
        run host_respond (prettify "-" ["Python and pip executables"])
          (linux_terminal 20)
        = (Returned (line ++ PyStr.nl), linux_terminal 20,
           [StdoutIsatty; GetTerminalSize])).
Proof.
  apply (prettify_too_wide host host_respond "-"
           ["Python and pip executables"]
           {| columns := 20; lines := 24 |}
           (linux_terminal 20) (linux_terminal 20) (linux_terminal 20)).
  - reflexivity.
  - reflexivity.
  - exists "Python and pip executables". split.
    + left. reflexivity.
    + simpl. lia.
Defined.

(** C8 at work: [MWI_LOG_FILE] names a file that is not there. *)
Lemma collect_logs_without_logfile_witness :
  exists header : string,
    Returned (header_on linux_stale_log "matlab proxy logs") = Returned header
    /\ run host_respond collect_logs_from_logfile linux_stale_log
       = (Returned header, linux_stale_log,
          ([StdoutIsatty]
           ++ [EnvironGet "MWI_LOG_FILE"; PathExists "/tmp/mwi.log"])%list).
Proof.
  apply (collect_logs_without_logfile host host_respond
           linux_stale_log linux_stale_log linux_stale_log
           (Returned (header_on linux_stale_log "matlab proxy logs"))
           [StdoutIsatty]
           [EnvironGet "MWI_LOG_FILE"; PathExists "/tmp/mwi.log"]).
  - reflexivity.
  - right. exists "/tmp/mwi.log", linux_stale_log.
    split; [reflexivity | split; reflexivity].
Defined.

(* ===================================================================== *)
(** ** Report driver *)
(* ===================================================================== *)

Ltac silence :=
  unfold silent;
  repeat first
    [ apply only_asks_ret
    | apply only_asks_raise
    | apply only_asks_call; reflexivity
    | assumption
    | apply only_asks_try_except
    | apply only_asks_for_each; intros ? ?
    | apply only_asks_list_comp; intros ?
    | match goal with
      | |- only_asks _ (match ?x with _ => _ end) => destruct x
      end
    | apply only_asks_bind; [| intros ?] ].

Lemma silent_find_executable (args : list string) :
  silent (find_executable args).
Proof. unfold find_executable. silence. Qed.

Lemma silent_subprocess_run (cmd : string) (timeout : nat) :
  silent (subprocess_run cmd timeout).
Proof. unfold subprocess_run. silence. Qed.

Lemma silent_exec_command (args : list string) : silent (exec_command args).
Proof.
  unfold exec_command. silence.
Qed.

Lemma silent_process_output (os_name : string)
  (func : list string -> prog (list cmd_output)) (suppress : bool)
  (args : list string) :
  (forall a, silent (func a)) ->
  silent (process_output os_name func suppress args).
Proof.
  intros Hf. unfold process_output. unfold silent in *.
  apply only_asks_bind; [apply Hf | intros results].
  destruct (process_output_loop os_name suppress results) as [[b e] rec].
  constructor.
Qed.

Lemma silent_find_executable_and_version (os_name cmd : string)
  (suppress : bool) :
  silent (find_executable_and_version os_name cmd suppress).
Proof.
  unfold find_executable_and_version, silent.
  apply only_asks_bind;
    [apply silent_process_output, silent_find_executable | intros rep].
  destruct (negb (has_error rep)); [| constructor].
  apply only_asks_bind;
    [apply silent_process_output, silent_exec_command | intros version].
  constructor.
Qed.

Lemma silent_ljust (s : string) (width : nat) (fillchar : string) :
  silent (ljust s width fillchar).
Proof.
  unfold ljust, silent. destruct fillchar as [| c [| d rest]]; constructor.
Qed.

Lemma silent_prettify (boundary_filler : string) (text_arr : list string) :
  silent (prettify boundary_filler text_arr).
Proof.
  unfold prettify, silent.
  apply only_asks_bind; [apply only_asks_call; reflexivity | intros t].
  destruct (negb t); [constructor |].
  apply only_asks_bind; [apply only_asks_call; reflexivity | intros sz].
  destruct (existsb _ text_arr); [constructor |].
  apply only_asks_bind.
  - destruct (0 <? List.length text_arr); [| constructor].
    apply only_asks_bind; [apply silent_ljust | intros fill; constructor].
  - intros upper. apply only_asks_bind; [| intros lower; constructor].
    destruct (0 <? List.length text_arr); [apply silent_ljust | constructor].
Qed.

Lemma silent_generate_header (title : string) :
  silent (generate_header title).
Proof.
  unfold generate_header, silent.
  apply only_asks_bind; [apply silent_prettify | intros framed; constructor].
Qed.

Lemma silent_collect_logs_from_logfile : silent collect_logs_from_logfile.
Proof.
  unfold collect_logs_from_logfile, silent.
  apply only_asks_bind; [apply silent_generate_header | intros header].
  apply only_asks_bind; [apply only_asks_call; reflexivity | intros log_file].
  apply only_asks_bind; [| intros logs; constructor].
  destruct log_file as [path |]; [| constructor].
  apply only_asks_bind; [apply only_asks_call; reflexivity | intros present].
  destruct present; [| constructor].
  apply only_asks_bind; [apply only_asks_call; reflexivity | intros text].
  destruct text; constructor.
Qed.

(** Every section of the report is silent. *)
Lemma silent_report_sections (os_name : string) :
  Forall (fun section => silent section) (report_sections os_name).
Proof.
  pose proof silent_generate_header as Hh.
  pose proof (silent_process_output os_name) as Hp.
  pose proof silent_find_executable as Hf.
  pose proof silent_exec_command as He.
  pose proof (silent_find_executable_and_version os_name) as Hv.
  unfold silent in *. unfold report_sections.
  repeat apply Forall_cons; try apply Forall_nil.
  - unfold list_matlab.
    apply only_asks_bind; [apply Hh | intros header].
    apply only_asks_bind; [apply Hp, Hf | intros rep; constructor].
  - unfold list_matlab_proxy_on_path.
    apply only_asks_bind; [apply Hh | intros header].
    apply only_asks_bind; [apply Hp, Hf | intros rep; constructor].
  - unfold list_jupyter_executable.
    apply only_asks_bind; [apply Hh | intros header].
    apply only_asks_bind; [apply Hp, Hf | intros rep; constructor].
  - unfold check_python_and_pip_installed.
    apply only_asks_bind; [apply Hh | intros header].
    apply only_asks_bind; [| intros outputs; constructor].
    apply only_asks_list_comp. intros cmd. apply Hv.
  - unfold os_info.
    apply only_asks_bind; [apply Hh | intros header].
    apply only_asks_bind; [apply only_asks_call; reflexivity | intros s].
    apply only_asks_bind; [apply only_asks_call; reflexivity | intros r].
    apply only_asks_bind; [apply only_asks_call; reflexivity | intros p].
    apply only_asks_bind; [apply Hp, He | intros rep; constructor].
  - unfold list_conda_related_information.
    apply only_asks_bind; [apply Hh | intros header].
    apply only_asks_bind; [apply Hv | intros outputs].
    apply only_asks_bind; [apply Hp, He | intros rep; constructor].
  - unfold list_installed_packages.
    apply only_asks_bind; [apply Hh | intros header].
    apply only_asks_bind; [apply Hp, He | intros rep; constructor].
  - unfold list_server_extensions.
    apply only_asks_bind; [apply Hh | intros header].
    apply only_asks_bind; [| intros outputs; constructor].
    apply only_asks_list_comp. intros cmd. apply Hp, He.
  - unfold list_env_vars.
    apply only_asks_bind; [apply Hh | intros header].
    apply only_asks_bind; [apply Hp, He | intros rep; constructor].
  - apply silent_collect_logs_from_logfile.
Qed.

Section Driver.

Variable os_name : string.
Variable W : Type.
Variable respond : forall r : request, W -> reply r * W.

Lemma run_call (r : request) (w : W) :
  run respond (call r) w
  = let (x, w1) := respond r w in (Returned x, w1, [r]).
Proof. reflexivity. Qed.

Lemma run_list_comp_cons {A B : Type} (f : A -> prog B) (x : A)
  (rest : list A) (w : W) :
  run respond (list_comp f (x :: rest)) w
  = let '(o, w1, t1) := run respond (f x) w in
    match o with
    | Returned y =>
        let '(o2, w2, t2) := run respond (list_comp f rest) w1 in
        match o2 with
        | Returned ys => (Returned (y :: ys), w2, (t1 ++ t2)%list)
        | Raised e => (Raised e, w2, (t1 ++ t2)%list)
        end
    | Raised e => (Raised e, w1, t1)
    end.
Proof.
  simpl. rewrite run_bind.
  destruct (run respond (f x) w) as [[o w1] t1].
  destruct o as [y | e]; [| reflexivity].
  rewrite run_bind.
  destruct (run respond (list_comp f rest) w1) as [[o2 w2] t2].
  destruct o2 as [ys | e]; [| reflexivity].
  simpl. now rewrite app_nil_r.
Qed.

(** A list of silent programs, run one after the other, prints nothing. *)
Lemma silent_sections_trace (sections : list (prog string)) (w : W) :
  Forall (fun section => silent section) sections ->
  Forall (fun r => is_print r = false)
    (snd (run respond (list_comp (fun section => section) sections) w)).
Proof.
  intros H. apply only_asks_trace.
  induction H as [| section rest Hs _ IH]; simpl.
  - constructor.
  - apply only_asks_bind; [exact Hs | intros y].
    apply only_asks_bind; [exact IH | intros ys; constructor].
Qed.

Ltac next_section H :=
  rewrite run_list_comp_cons in H; cbv beta in H;
  match type of H with
  | context [run respond ?p ?w0] =>
      let E := fresh "E" in
      let s := fresh "s" in
      let e := fresh "e" in
      destruct (run respond p w0) as [[[s | e] ?] ?] eqn:E;
      [| discriminate H]
  end.

(** C3, amended: [print_environment_info] runs the sections in the order
    matlab executable, matlab-proxy-app executable, jupyter executable,
    Python and pip executables, OS information, Conda information (lookup
    with version, then the environment list), Installed packages, Server
    extensions, Environment variables, matlab proxy logs.  Whenever all of
    them return, the document is the concatenation of their texts in this
    order, it is handed to [print] once, after everything else, and
    nothing is printed before. *)
Theorem print_environment_info_order (w w1 w2 : W)
  (texts : list string) (tr : list request) :
  run respond
    (list_comp (fun section => section) (report_sections os_name)) w
  = (Returned texts, w1, tr) ->
  respond (PrintOut (PyStr.join "" texts)) w1 = (tt, w2) ->
  run respond (print_environment_info os_name) w
  = (Returned tt, w2, (tr ++ [PrintOut (PyStr.join "" texts)])%list)
  /\ Forall (fun r => is_print r = false) tr
  /\ List.length texts = 10.
Proof.
  intros H Hprint.
  assert (Hsilent : Forall (fun r => is_print r = false) tr).
  { pose proof (silent_sections_trace _ w (silent_report_sections os_name))
      as Hs.
    rewrite H in Hs. exact Hs. }
  split; [| split; [exact Hsilent |]].
  - unfold report_sections in H.
    do 10 next_section H.
    simpl in H. injection H as <- <- <-.
    unfold print_environment_info.
    rewrite (run_bind_returned _ _ _ _ _ _ _ _ E); cbv beta zeta.
    rewrite (run_bind_returned _ _ _ _ _ _ _ _ E0); cbv beta zeta.
    rewrite (run_bind_returned _ _ _ _ _ _ _ _ E1); cbv beta zeta.
    rewrite (run_bind_returned _ _ _ _ _ _ _ _ E2); cbv beta zeta.
    rewrite (run_bind_returned _ _ _ _ _ _ _ _ E3); cbv beta zeta.
    rewrite (run_bind_returned _ _ _ _ _ _ _ _ E4); cbv beta zeta.
    rewrite (run_bind_returned _ _ _ _ _ _ _ _ E5); cbv beta zeta.
    rewrite (run_bind_returned _ _ _ _ _ _ _ _ E6); cbv beta zeta.
    rewrite (run_bind_returned _ _ _ _ _ _ _ _ E7); cbv beta zeta.
    rewrite (run_bind_returned _ _ _ _ _ _ _ _ E8); cbv beta zeta.
    match goal with
    | |- context [call (PrintOut ?d)] =>
        assert (Hdoc : d = PyStr.join "" [s; s0; s1; s2; s3; s4; s5; s6; s7; s8])
    end.
    { unfold PyStr.join. simpl. repeat rewrite append_assoc. reflexivity. }
    rewrite Hdoc. unfold call. cbn [run]. rewrite Hprint.
    rewrite app_nil_r. repeat rewrite <- app_assoc. reflexivity.
  - unfold report_sections in H.
    do 10 next_section H.
    simpl in H. injection H as <- _ _. reflexivity.
Qed.

End Driver.

(** C3 at work: the report of the Linux machine, written to a pipe. *)
Lemma print_environment_info_order_witness :
  run host_respond (print_environment_info "posix") linux_pipe
  = (Returned tt,
     host_print linux_pipe (PyStr.join "" (section_texts "posix" linux_pipe)),
     (section_requests "posix" linux_pipe
      ++ [PrintOut (PyStr.join "" (section_texts "posix" linux_pipe))])%list)
  /\ Forall (fun r => is_print r = false)
       (section_requests "posix" linux_pipe)
  /\ List.length (section_texts "posix" linux_pipe) = 10.
Proof.
  apply (print_environment_info_order "posix" host host_respond
           linux_pipe linux_pipe
           (host_print linux_pipe
              (PyStr.join "" (section_texts "posix" linux_pipe)))
           (section_texts "posix" linux_pipe)
           (section_requests "posix" linux_pipe)).
  - vm_compute. reflexivity.
  - reflexivity.
Defined.

(** C3 as stated fails: on the Linux machine both the report of the source
    and a report in the specified order are printed, and they differ.  The
    printed document begins with the header of the MATLAB lookup, not with
    the header of the OS information, with which the specified order would
    have it begin. *)
Lemma print_environment_info_not_in_specified_order :
  fst (fst (on_host (print_environment_info "posix") linux_pipe))
  = Returned tt
  /\ fst (fst (on_host (specified_report "posix") linux_pipe)) = Returned tt
  /\ printed_by (print_environment_info "posix") linux_pipe
     <> printed_by (specified_report "posix") linux_pipe
  /\ prefix (header_on linux_pipe "OS information")
       (hd "" (printed_by (print_environment_info "posix") linux_pipe))
     = false
  /\ prefix (header_on linux_pipe "matlab executable")
       (hd "" (printed_by (print_environment_info "posix") linux_pipe))
     = true
  /\ prefix (header_on linux_pipe "OS information")
       (hd "" (printed_by (specified_report "posix") linux_pipe))
     = true.
Proof.
  split; [vm_compute; reflexivity |].
  split; [vm_compute; reflexivity |].
  split; [| split; [| split]]; try (vm_compute; reflexivity).
  intros H. vm_compute in H. discriminate H.
Qed.

(* ===================================================================== *)
(** ** The embedding on concrete machines *)
(* ===================================================================== *)

(** A name that is not on the search path: error, and a recommendation
    that mentions the name. *)
Example lookup_of_a_missing_name :
  on_host (process_output "posix" find_executable false ["doesnotexist123"])
    linux_pipe
  = (Returned
       {| body := "doesnotexist123 - None - " ++ PyStr.esc ++ "[31m X"
                  ++ PyStr.esc ++ "[0m" ++ PyStr.nl;
          recommendations :=
            "Recommendation: doesnotexist123 is not installed. "
            ++ "Please install doesnotexist123." ++ PyStr.nl;
          has_error := true |},
     linux_pipe, [Which "doesnotexist123"]).
Proof. reflexivity. Qed.

(** [echo hello]: the body is the trimmed output, no error, no
    recommendation. *)
Example echo_hello :
  on_host (process_output "posix" exec_command false ["echo hello"])
    linux_pipe
  = (Returned {| body := "hello" ++ PyStr.nl; recommendations := "";
                 has_error := false |},
     linux_pipe, [SpawnShell "echo hello" 10]).
Proof. reflexivity. Qed.

(** Only the last result of a probe group is kept as the body. *)
Example body_of_the_last_result :
  on_host (process_output "nt" find_executable false ["python"; "matlab"; "pip"])
    linux_pipe
  = (Returned
       {| body := "pip - /usr/bin/pip - ok" ++ PyStr.nl;
          recommendations :=
            "Recommendation: pip is not installed. Please install pip."
            ++ PyStr.nl;
          has_error := true |},
     linux_pipe, [Which "python"; Which "matlab"; Which "pip"]).
Proof. reflexivity. Qed.

(** A header at a terminal of twenty columns: a rule of the fill
    character, the centred title, a second rule, and the newline of
    [generate_header]. *)
Example header_at_a_terminal :
  on_host (generate_header "jupyter executable") (linux_terminal 20)
  = (Returned
       (PyStr.nl ++ "--------------------" ++ PyStr.nl
        ++ " jupyter executable " ++ PyStr.nl
        ++ "--------------------" ++ PyStr.nl),
     linux_terminal 20, [StdoutIsatty; GetTerminalSize]).
Proof. reflexivity. Qed.

(** A fill of two characters is a [TypeError] at a terminal. *)
Example prettify_long_fill :
  on_host (prettify "--" ["abc"]) (linux_terminal 20)
  = (Raised TypeError, linux_terminal 20, [StdoutIsatty; GetTerminalSize]).
Proof. reflexivity. Qed.

(** No text blocks at a terminal: no frame at all. *)
Example prettify_nothing :
  on_host (prettify "-" []) (linux_terminal 20)
  = (Returned "", linux_terminal 20, [StdoutIsatty; GetTerminalSize]).
Proof. reflexivity. Qed.

Example strip_trims_both_ends :
  PyStr.strip ("  Python 3.10.4 " ++ PyStr.nl) = "Python 3.10.4".
Proof. reflexivity. Qed.

Example splitlines_keeps_empty_lines :
  PyStr.splitlines ("a" ++ PyStr.nl ++ PyStr.nl ++ "b" ++ PyStr.nl)
  = ["a"; ""; "b"].
Proof. reflexivity. Qed.

(* ===================================================================== *)
(** ** More on strings *)
(* ===================================================================== *)

Lemma lstrip_first (s : string) (c : ascii) :
  first_char (PyStr.lstrip s) = Some c -> PyStr.isspace c = false.
Proof.
  induction s as [| d r IH]; simpl; [discriminate |].
  destruct (PyStr.isspace d) eqn:E; [exact IH |].
  simpl. intros H. injection H as <-. exact E.
Qed.

Lemma rstrip_first (s : string) (c : ascii) :
  first_char (PyStr.rstrip s) = Some c -> first_char s = Some c.
Proof.
  destruct s as [| d r]; simpl; [discriminate |].
  destruct (PyStr.rstrip r); [destruct (PyStr.isspace d) |];
    simpl; intros H; try discriminate H; exact H.
Qed.

Lemma rstrip_last (s : string) (c : ascii) :
  last_char (PyStr.rstrip s) = Some c -> PyStr.isspace c = false.
Proof.
  induction s as [| d r IH]; simpl; [discriminate |].
  destruct (PyStr.rstrip r) as [| d' r'] eqn:E.
  - destruct (PyStr.isspace d) eqn:Ed; simpl; [discriminate |].
    intros H. injection H as <-. exact Ed.
  - simpl. exact IH.
Qed.

(** [strip] leaves no whitespace at either end. *)
Lemma strip_trimmed (s : string) : trimmed (PyStr.strip s).
Proof.
  unfold PyStr.strip. split; intros c H.
  - apply (lstrip_first s). now apply rstrip_first.
  - now apply (rstrip_last (PyStr.lstrip s)).
Qed.

Lemma first_char_append (a b : string) :
  first_char (a ++ b)
  = match a with EmptyString => first_char b | _ => first_char a end.
Proof. destruct a; reflexivity. Qed.

Lemma last_char_append (a b : string) :
  last_char (a ++ b)
  = match b with EmptyString => last_char a | _ => last_char b end.
Proof.
  induction a as [| c a IH]; simpl.
  - destruct b; reflexivity.
  - rewrite IH. destruct a as [| d a]; simpl.
    + destruct b; reflexivity.
    + destruct b; reflexivity.
Qed.

Lemma trimmed_append (a b : string) :
  trimmed a -> trimmed b -> trimmed (a ++ b).
Proof.
  intros [Ha1 Ha2] [Hb1 Hb2]. split; intros c.
  - rewrite first_char_append. destruct a; [apply Hb1 | apply Ha1].
  - rewrite last_char_append. destruct b; [apply Ha2 | apply Hb2].
Qed.

Lemma length_append (a b : string) :
  PyStr.len (a ++ b) = PyStr.len a + PyStr.len b.
Proof.
  unfold PyStr.len.
  induction a as [| c a IH]; simpl; [reflexivity | now rewrite IH].
Qed.

(** A centred string is as wide as asked, or as long as it was. *)
Lemma length_center (s : string) (width : nat) :
  PyStr.len (PyStr.center s width) = Nat.max width (PyStr.len s).
Proof.
  unfold PyStr.center.
  destruct (Nat.leb_spec width (PyStr.len s)) as [H | H]; [lia |].
  rewrite !length_append, !length_repeat_char.
  assert (Hdiv : (width - PyStr.len s) / 2 <= width - PyStr.len s)
    by (apply Nat.Div0.div_le_upper_bound; lia).
  assert (Hhalf : (width - PyStr.len s) / 2 < width - PyStr.len s
                  \/ width - PyStr.len s = 1).
  { destruct (Nat.eq_dec (width - PyStr.len s) 1) as [E | E];
      [right; assumption | left].
    apply Nat.Div0.div_lt_upper_bound. lia. }
  destruct (Nat.odd (width - PyStr.len s) && Nat.odd width) eqn:E.
  - apply andb_prop in E. destruct E as [E1 E2].
    destruct Hhalf as [Hlt | H1]; [lia |].
    rewrite H1. simpl. lia.
  - lia.
Qed.

(* ===================================================================== *)
(** ** More on the probe runner *)
(* ===================================================================== *)

Section ProbeBatches.

Variable W : Type.
Variable respond : forall r : request, W -> reply r * W.

(** A loop over two lists in a row is the loop over the first followed by
    the loop over the second. *)
Lemma run_for_each_app {A S : Type} (l1 l2 : list A)
  (body : A -> S -> prog S) (s : S) (w : W) :
  run respond (for_each (l1 ++ l2)%list body s) w
  = let '(o, w1, t1) := run respond (for_each l1 body s) w in
    match o with
    | Returned s1 =>
        let '(o2, w2, t2) := run respond (for_each l2 body s1) w1 in
        (o2, w2, (t1 ++ t2)%list)
    | Raised e => (Raised e, w1, t1)
    end.
Proof.
  revert s w. induction l1 as [| x l1 IH]; intros s w; simpl.
  - destruct (run respond (for_each l2 body s) w) as [[o w1] t1].
    reflexivity.
  - rewrite !run_bind.
    destruct (run respond (body x s) w) as [[o w1] t1].
    destruct o as [s1 | e]; [| reflexivity].
    rewrite IH.
    destruct (run respond (for_each l1 body s1) w1) as [[o2 w2] t2].
    destruct o2 as [s2 | e]; [| reflexivity].
    destruct (run respond (for_each l2 body s2) w2) as [[o3 w3] t3].
    now rewrite app_assoc.
Qed.

(** The loop of [find_executable] adds one result per name to whatever
    has been collected, and never raises. *)
Lemma find_executable_loop (args : list string) :
  forall w : W,
  exists (new : list cmd_output) (w1 : W),
    (forall acc : list cmd_output,
        run respond
          (for_each args
             (fun name output =>
                path <- call (Which name) ;;
                Ret (append output
                       (new_cmd_output name path
                          (match path with
                           | None => true
                           | Some _ => false
                           end))))
             acc) w
        = (Returned (acc ++ new)%list, w1, map Which args))
    /\ map command new = args
    /\ Forall (fun r => cls r = class_cmd_output
                        /\ isError r = output_absent r) new.
Proof.
  induction args as [| name rest IH]; intros w.
  - exists [], w. split; [| split; [reflexivity | constructor]].
    intros acc. simpl. now rewrite app_nil_r.
  - destruct (respond (Which name) w) as [path w2] eqn:E.
    destruct (IH w2) as (new & w1 & Hrun & Hcmd & Hall).
    exists (new_cmd_output name path
              (match path with None => true | Some _ => false end) :: new),
      w1.
    split; [| split].
    + intros acc. simpl. rewrite E. simpl. rewrite Hrun.
      unfold append. now rewrite <- app_assoc.
    + simpl. now rewrite Hcmd.
    + constructor; [| assumption].
      split; [reflexivity | destruct path; reflexivity].
Qed.

(** X1: [find_executable] always returns: one [cmd_output] per name, in the
    order of the names, flagged exactly when no path was found, having
    asked the host for each name once, in order, and nothing else. *)
Theorem find_executable_returns (args : list string) (w : W) :
  exists (results : list cmd_output) (w1 : W),
    run respond (find_executable args) w
    = (Returned results, w1, map Which args)
    /\ map command results = args
    /\ Forall (fun r => cls r = class_cmd_output
                        /\ isError r = output_absent r) results.
Proof.
  destruct (find_executable_loop args w) as (new & w1 & Hrun & Hcmd & Hall).
  exists new, w1. split; [| split; assumption].
  unfold find_executable. exact (Hrun []).
Qed.

(** The loop of [exec_command] either adds one result per command to
    whatever has been collected, or stops with [TimeoutExpired] at the
    first command that is still running after ten seconds. *)
Lemma exec_command_loop (args : list string) :
  forall w : W,
  (exists (new : list cmd_output) (w1 : W),
      (forall acc : list cmd_output,
          run respond
            (for_each args
               (fun cmd output =>
                  try_except
                    (completed_process <- subprocess_run cmd 10 ;;
                     Ret (append output
                            (new_cmd_only_output cmd
                               (Some (PyStr.strip (stdout completed_process)
                                      ++ PyStr.strip
                                           (stderr completed_process)))
                               (if negb (stderr completed_process =? "")%string
                                then true else false))))
                    TimeoutError
                    (Ret (append output
                            (new_cmd_only_output cmd
                               (Some (cmd ++ " command timed out!")) true))))
               acc) w
          = (Returned (acc ++ new)%list, w1, map spawn args))
      /\ map command new = args
      /\ Forall (fun r => cls r = class_cmd_only_output
                          /\ output_absent r = false
                          /\ forall s, output r = Some s -> trimmed s) new)
  \/ (exists (w1 : W) (before : list string) (cmd : string)
             (after : list string),
         args = (before ++ cmd :: after)%list
         /\ forall acc : list cmd_output,
             run respond
               (for_each args
                  (fun cmd output =>
                     try_except
                       (completed_process <- subprocess_run cmd 10 ;;
                        Ret (append output
                               (new_cmd_only_output cmd
                                  (Some (PyStr.strip
                                           (stdout completed_process)
                                         ++ PyStr.strip
                                              (stderr completed_process)))
                                  (if negb
                                        (stderr completed_process =? "")%string
                                   then true else false))))
                       TimeoutError
                       (Ret (append output
                               (new_cmd_only_output cmd
                                  (Some (cmd ++ " command timed out!"))
                                  true))))
                  acc) w
             = (Raised TimeoutExpired, w1,
                map spawn (before ++ [cmd])%list)).
Proof.
  induction args as [| cmd rest IH]; intros w.
  - left. exists [], w. split; [| split; [reflexivity | constructor]].
    intros acc. simpl. now rewrite app_nil_r.
  - destruct (respond (SpawnShell cmd 10) w) as [st w2] eqn:E.
    destruct st as [cp |].
    + destruct (IH w2)
        as [(new & w1 & Hrun & Hcmd & Hall)
           | (w1 & before & c & after & -> & Hrun)].
      * left.
        exists (new_cmd_only_output cmd
                  (Some (PyStr.strip (stdout cp) ++ PyStr.strip (stderr cp)))
                  (if negb (stderr cp =? "")%string then true else false)
                :: new), w1.
        split; [| split].
        -- intros acc. simpl. rewrite E. simpl. rewrite Hrun.
           unfold append. now rewrite <- app_assoc.
        -- simpl. now rewrite Hcmd.
        -- constructor; [| assumption].
           split; [reflexivity | split; [reflexivity |]].
           intros s H. injection H as <-.
           apply trimmed_append; apply strip_trimmed.
      * right. exists w1, (cmd :: before), c, after.
        split; [reflexivity |].
        intros acc. simpl. rewrite E. simpl. rewrite Hrun. reflexivity.
    + right. exists w2, [], cmd, rest. split; [reflexivity |].
      intros acc. simpl. rewrite E. reflexivity.
Qed.

(** X3: When [exec_command] returns, there is one [cmd_only_output] per
    command, in the order of the commands, each with an output string
    that neither begins nor ends with whitespace; every command was run
    once, in order, with the ten second timeout, and nothing else was
    asked of the host. *)
Theorem exec_command_returned (args : list string) (w w1 : W)
  (results : list cmd_output) (tr : list request) :
  run respond (exec_command args) w = (Returned results, w1, tr) ->
  map command results = args
  /\ tr = map spawn args
  /\ Forall (fun r => cls r = class_cmd_only_output
                      /\ output_absent r = false
                      /\ forall s, output r = Some s -> trimmed s) results.
Proof.
  intros H. unfold exec_command in H.
  destruct (exec_command_loop args w)
    as [(new & w1' & Hrun & Hcmd & Hall) | (w1' & b & c & a & _ & Hrun)].
  - rewrite (Hrun []) in H. injection H as <- _ <-.
    split; [assumption | split; [reflexivity | assumption]].
  - rewrite (Hrun []) in H. discriminate H.
Qed.


(** X5: Running two batches of commands in one call gives the results of the
    first batch followed by the results of the second, run on the host as
    the first batch left it. *)
Theorem exec_command_app (first second : list string) (w w1 w2 : W)
  (r1 r2 : list cmd_output) (t1 t2 : list request) :
  run respond (exec_command first) w = (Returned r1, w1, t1) ->
  run respond (exec_command second) w1 = (Returned r2, w2, t2) ->
  run respond (exec_command (first ++ second)%list) w
  = (Returned (r1 ++ r2)%list, w2, (t1 ++ t2)%list).
Proof.
  intros H1 H2. unfold exec_command in *.
  rewrite run_for_each_app, H1.
  destruct (exec_command_loop second w1)
    as [(new & w' & Hrun & _) | (w' & b & c & a & _ & Hrun)].
  - rewrite (Hrun []) in H2. injection H2 as <- <- <-.
    rewrite (Hrun r1). reflexivity.
  - rewrite (Hrun []) in H2. discriminate H2.
Qed.

(** X6: A command that does not end in time takes the results of the commands
    before it with it, and the commands after it are not run. *)
Theorem exec_command_timeout_aborts_batch (before after : list string)
  (cmd : string) (w w1 w2 : W) (r1 : list cmd_output)
  (t1 : list request) :
  run respond (exec_command before) w = (Returned r1, w1, t1) ->
  respond (SpawnShell cmd 10) w1 = (StillRunning, w2) ->
  run respond (exec_command (before ++ cmd :: after)%list) w
  = (Raised TimeoutExpired, w2, (t1 ++ [SpawnShell cmd 10])%list).
Proof.
  intros H1 H2. unfold exec_command in *.
  rewrite run_for_each_app, H1. simpl. rewrite H2. reflexivity.
Qed.

(** X2: Two batches of names looked up in one call. *)
Theorem find_executable_app (first second : list string) (w w1 w2 : W)
  (r1 r2 : list cmd_output) (t1 t2 : list request) :
  run respond (find_executable first) w = (Returned r1, w1, t1) ->
  run respond (find_executable second) w1 = (Returned r2, w2, t2) ->
  run respond (find_executable (first ++ second)%list) w
  = (Returned (r1 ++ r2)%list, w2, (t1 ++ t2)%list).
Proof.
  intros H1 H2. unfold find_executable in *.
  rewrite run_for_each_app, H1.
  destruct (find_executable_loop second w1) as (new & w' & Hrun & _).
  rewrite (Hrun []) in H2. injection H2 as <- <- <-.
  rewrite (Hrun r1). reflexivity.
Qed.

End ProbeBatches.

(* ===================================================================== *)
(** ** More on the result classifier *)
(* ===================================================================== *)

Section Reports.

Variable os_name : string.
Variable W : Type.
Variable respond : forall r : request, W -> reply r * W.

(** The locals after the loop, in terms of the last result. *)
Lemma process_output_loop_last (suppress : bool)
  (before : list cmd_output) (final : cmd_output) :
  let st := process_output_loop os_name suppress (before ++ [final]) in
  fst (fst st) = cmd_output_str os_name final
  /\ snd st
     = if snd (fst st) && negb suppress
       then recommendation_for (command final) else "".
Proof.
  unfold process_output_loop. rewrite fold_left_app.
  pose proof (recommendation_fold os_name suppress before ("", false, "")
                (fun _ => eq_refl) (fun _ => eq_refl)) as Hinv.
  simpl in Hinv.
  destruct (fold_left (process_output_step os_name suppress) before
              ("", false, "")) as [[b e] rec].
  simpl in *. destruct Hinv as [H1 H2].
  split; [reflexivity |].
  destruct (output final); simpl.
  - destruct e; simpl.
    + destruct suppress; simpl; [now apply H2 | reflexivity].
    + now apply H1.
  - destruct suppress; simpl; [now apply H2 | reflexivity].
Qed.

Lemma run_process_output_inv
  (func : list string -> prog (list cmd_output)) (suppress : bool)
  (args : list string) (w w1 : W) (rep : Report) (tr : list request) :
  run respond (process_output os_name func suppress args) w
  = (Returned rep, w1, tr) ->
  exists results : list cmd_output,
    run respond (func args) w = (Returned results, w1, tr)
    /\ rep = {| body := fst (fst (process_output_loop os_name suppress
                                    results));
                recommendations :=
                  snd (process_output_loop os_name suppress results);
                has_error :=
                  snd (fst (process_output_loop os_name suppress results)) |}.
Proof.
  intros H.
  destruct (run respond (func args) w) as [[o w'] t] eqn:E.
  destruct o as [results | e].
  - rewrite (run_process_output os_name W respond _ suppress _ _ _ _ _ E) in H.
    injection H as <- <- <-. exists results. split; reflexivity.
  - rewrite (run_process_output_raised os_name W respond _ suppress
               _ _ _ _ _ E) in H.
    discriminate H.
Qed.

(** X8: The body of a report is the rendered line of the last result alone:
    the lines of the results before it are overwritten.  The
    recommendation, when there is one, names the command of the last
    result, whichever result set the error; there is one exactly when
    [has_error] is set and the suggestions are not suppressed.  Without
    results the report is empty and without error. *)
Theorem process_output_keeps_last
  (func : list string -> prog (list cmd_output)) (suppress : bool)
  (args : list string) (w w1 : W) (results : list cmd_output)
  (tr : list request) :
  run respond (func args) w = (Returned results, w1, tr) ->
  exists rep : Report,
    run respond (process_output os_name func suppress args) w
    = (Returned rep, w1, tr)
    /\ (results = [] ->
        rep = {| body := ""; recommendations := ""; has_error := false |})
    /\ (forall (before : list cmd_output) (final : cmd_output),
          results = (before ++ [final])%list ->
          body rep = cmd_output_str os_name final
          /\ recommendations rep
             = if has_error rep && negb suppress
               then recommendation_for (command final) else "").
Proof.
  intros H. eexists.
  split; [apply run_process_output, H |]. split.
  - intros ->. reflexivity.
  - intros before final ->. simpl.
    exact (process_output_loop_last suppress before final).
Qed.

(** Suppressing the suggestions changes nothing but the recommendation:
    the body and the error flag of the report are the same with and
    without. *)
Lemma process_output_loop_suppress (results : list cmd_output) :
  fst (process_output_loop os_name true results)
  = fst (process_output_loop os_name false results).
Proof.
  unfold process_output_loop.
  assert (G : forall st st' : locals,
             fst st = fst st' ->
             fst (fold_left (process_output_step os_name true) results st)
             = fst (fold_left (process_output_step os_name false) results
                      st')).
  { induction results as [| r rs IH]; intros [[b e] rec] [[b' e'] rec'] H.
    - exact H.
    - simpl in H. injection H as -> ->. simpl. apply IH. reflexivity. }
  apply G. reflexivity.
Qed.

(** X9: Run with and without suppression on the same host, [process_output]
    gives reports with the same body and the same error flag; the
    suppressed one has no recommendation, so its text is the body. *)
Theorem process_output_suppress_only_recommendation
  (func : list string -> prog (list cmd_output))
  (args : list string) (w w1 : W) (results : list cmd_output)
  (tr : list request) :
  run respond (func args) w = (Returned results, w1, tr) ->
  exists shown quiet : Report,
    run respond (process_output os_name func false args) w
    = (Returned shown, w1, tr)
    /\ run respond (process_output os_name func true args) w
       = (Returned quiet, w1, tr)
    /\ body quiet = body shown
    /\ has_error quiet = has_error shown
    /\ Report_str quiet = body shown.
Proof.
  intros H. eexists. eexists.
  split; [apply run_process_output, H |].
  split; [apply run_process_output, H |].
  pose proof (process_output_loop_suppress results) as Hs.
  pose proof (recommendation_fold os_name true results ("", false, "")
                (fun _ => eq_refl) (fun _ => eq_refl)) as [_ Hrec].
  fold (process_output_loop os_name true results) in Hrec.
  simpl. unfold Report_str, PyStr.join. simpl.
  rewrite (Hrec eq_refl), append_nil_r, Hs.
  repeat split; reflexivity.
Qed.

(** X10: A report made from shell commands never has the error flag and never
    has a recommendation, also with the suggestions shown and with
    commands that wrote to stderr: its text is its body. *)
Theorem process_output_of_commands (suppress : bool)
  (args : list string) (w w1 : W) (rep : Report) (tr : list request) :
  run respond (process_output os_name exec_command suppress args) w
  = (Returned rep, w1, tr) ->
  has_error rep = false
  /\ recommendations rep = ""
  /\ Report_str rep = body rep
  /\ tr = map spawn args.
Proof.
  intros H.
  destruct (run_process_output_inv _ _ _ _ _ _ _ H) as (results & Hrun & ->).
  assert (Hshape : tr = map spawn args
                   /\ Forall (fun r => output_absent r = false) results).
  { unfold exec_command in Hrun.
    destruct (exec_command_loop W respond args w)
      as [(new & w' & Hloop & _ & Hall) | (w' & b & c & a & _ & Hloop)];
      rewrite (Hloop []) in Hrun; [| discriminate Hrun].
    injection Hrun as <- _ <-. split; [reflexivity |].
    eapply Forall_impl; [| exact Hall]. intros r (_ & Hr & _). exact Hr. }
  destruct Hshape as [Htr Hall].
  pose proof (error_after_spec os_name suppress results) as Herr.
  unfold error_after in Herr.
  assert (Hnone : existsb output_absent results = false).
  { apply existsb_all_false. exact Hall. }
  rewrite Hnone in Herr.
  pose proof (recommendation_fold os_name suppress results ("", false, "")
                (fun _ => eq_refl) (fun _ => eq_refl)) as [Hrec _].
  fold (process_output_loop os_name suppress results) in Hrec.
  specialize (Hrec Herr).
  unfold Report_str, PyStr.join. simpl.
  rewrite Herr, Hrec, append_nil_r.
  repeat split; try reflexivity. exact Htr.
Qed.

(** X11: A report made from executable lookups has the error flag exactly when
    some name was not found; the lookups are all made, in order. *)
Theorem process_output_of_lookups (suppress : bool)
  (args : list string) (w : W) :
  exists (rep : Report) (results : list cmd_output) (w1 : W),
    run respond (process_output os_name find_executable suppress args) w
    = (Returned rep, w1, map Which args)
    /\ run respond (find_executable args) w
       = (Returned results, w1, map Which args)
    /\ has_error rep = existsb isError results
    /\ (has_error rep = true <->
        exists r, In r results /\ output r = None).
Proof.
  destruct (find_executable_loop W respond args w)
    as (results & w1 & Hloop & _ & Hall).
  pose proof (Hloop []) as Hrun. fold (find_executable args) in Hrun.
  simpl in Hrun.
  eexists. exists results, w1.
  split; [apply run_process_output, Hrun |].
  split; [exact Hrun |]. simpl.
  fold (error_after os_name suppress results).
  rewrite error_after_spec.
  split.
  - apply existsb_ext_in. eapply Forall_impl; [| exact Hall].
    intros r [_ Hr]. symmetry. exact Hr.
  - rewrite existsb_exists. unfold output_absent.
    split; intros (r & Hin & Hr); exists r; (split; [exact Hin |]).
    + destruct (output r); [discriminate | reflexivity].
    + now rewrite Hr.
Qed.

End Reports.

(* ===================================================================== *)
(** ** More on the renderer and the log section *)
(* ===================================================================== *)

Lemma lstrip_blank (s : string) :
  all_chars PyStr.isspace s = true -> PyStr.lstrip s = "".
Proof.
  induction s as [| c r IH]; simpl; [reflexivity |].
  intros H. apply andb_prop in H. destruct H as [Hc Hr].
  rewrite Hc. now apply IH.
Qed.

Lemma strip_blank (s : string) :
  all_chars PyStr.isspace s = true -> PyStr.strip s = "".
Proof. intros H. unfold PyStr.strip. now rewrite lstrip_blank. Qed.

Lemma fold_left_lines_of {A : Type} (f : A -> string) (l : list A)
  (acc : string) :
  fold_left (fun content x => content ++ f x ++ PyStr.nl) l acc
  = acc ++ one_per_line (map f l).
Proof.
  revert acc. induction l as [| x rest IH]; intros acc; simpl.
  - now rewrite append_nil_r.
  - rewrite IH, append_assoc.
    change (String "010" (one_per_line (map f rest)))
      with (PyStr.nl ++ one_per_line (map f rest)).
    now rewrite append_assoc.
Qed.

Lemma all_fit_existsb (cols : nat) (text_arr : list string) :
  Forall (fun text => PyStr.len text <= cols) text_arr ->
  existsb (fun text => cols <? PyStr.len text) text_arr = false.
Proof.
  intros H. apply existsb_all_false.
  eapply Forall_impl; [| exact H].
  intros text Hle. now apply Nat.ltb_ge.
Qed.

Lemma ljust_rule (c : ascii) (cols : nat) :
  (if cols <=? 0 then "" else PyStr.repeat_char c (cols - 0))
  = PyStr.repeat_char c cols.
Proof. destruct cols; reflexivity. Qed.

(** A line without line boundaries goes into the line being read. *)
Lemma splitlines_from_line (line rest cur : string) :
  all_chars (fun c => negb (PyStr.is_linebreak c)) line = true ->
  PyStr.splitlines_from cur (line ++ rest)
  = PyStr.splitlines_from (cur ++ line) rest.
Proof.
  revert cur. induction line as [| c line IH]; intros cur H; simpl.
  - now rewrite append_nil_r.
  - simpl in H. apply andb_prop in H. destruct H as [Hc Hline].
    apply negb_true_iff in Hc. rewrite Hc.
    rewrite (IH _ Hline), append_assoc. reflexivity.
Qed.

Lemma splitlines_from_newline (cur rest : string) :
  PyStr.splitlines_from cur (PyStr.nl ++ rest)
  = cur :: PyStr.splitlines_from "" rest.
Proof. destruct rest; reflexivity. Qed.

(** Lines that each end in a newline are read back as they are. *)
Lemma splitlines_one_per_line (lines : list string) :
  Forall (fun line =>
            all_chars (fun c => negb (PyStr.is_linebreak c)) line = true)
    lines ->
  PyStr.splitlines (one_per_line lines) = lines.
Proof.
  unfold PyStr.splitlines.
  induction 1 as [| line rest Hline _ IH]; [reflexivity |].
  change (one_per_line (line :: rest))
    with (line ++ PyStr.nl ++ one_per_line rest).
  rewrite (splitlines_from_line _ _ _ Hline), splitlines_from_newline.
  simpl. now rewrite IH.
Qed.

Section Rendering.

Variable W : Type.
Variable respond : forall r : request, W -> reply r * W.

(** X7: A command that writes nothing but whitespace, and some of it to
    stderr, is flagged as an error with an empty output: the flag looks at
    the raw stderr, the output is made of the trimmed streams. *)
Theorem exec_command_blank_stderr (cmd : string) (cp : CompletedProcess)
  (w w1 : W) :
  respond (SpawnShell cmd 10) w = (Exited cp, w1) ->
  all_chars PyStr.isspace (stdout cp) = true ->
  all_chars PyStr.isspace (stderr cp) = true ->
  stderr cp <> "" ->
  run respond (exec_command [cmd]) w
  = (Returned [new_cmd_only_output cmd (Some "") true], w1,
     [SpawnShell cmd 10]).
Proof.
  intros H Hout Herr Hne.
  rewrite (run_exec_command_exited W respond _ _ _ _ H).
  rewrite (strip_blank _ Hout), (strip_blank _ Herr).
  apply String.eqb_neq in Hne. rewrite Hne. reflexivity.
Qed.

(** X14: At a terminal where every block fits, with a fill of one character
    and at least one block, [prettify] draws the box: an empty line, a
    rule of the fill character as wide as the terminal, every block
    centred on a line of its own, and a second rule without a newline
    after it.  The rules and the centred lines are all exactly as wide as
    the terminal. *)
Theorem prettify_framed (c : ascii) (text_arr : list string)
  (sz : terminal_size) (w w1 w2 : W) :
  respond StdoutIsatty w = (true, w1) ->
  respond GetTerminalSize w1 = (sz, w2) ->
  text_arr <> [] ->
  Forall (fun text => PyStr.len text <= columns sz) text_arr ->
  run respond (prettify (String c "") text_arr) w
  = (Returned
       (PyStr.nl ++ PyStr.repeat_char c (columns sz) ++ PyStr.nl
        ++ one_per_line
             (map (fun text => PyStr.center text (columns sz)) text_arr)
        ++ PyStr.repeat_char c (columns sz)),
     w2, [StdoutIsatty; GetTerminalSize])
  /\ PyStr.len (PyStr.repeat_char c (columns sz)) = columns sz
  /\ Forall (fun line => PyStr.len line = columns sz)
       (map (fun text => PyStr.center text (columns sz)) text_arr).
Proof.
  intros Htty Hsize Hne Hfit. split; [| split].
  - unfold prettify. simpl. rewrite Htty. simpl. rewrite Hsize.
    rewrite (all_fit_existsb _ _ Hfit).
    destruct text_arr as [| text rest]; [contradiction |].
    cbn [List.length Nat.ltb Nat.leb]. unfold ljust.
    rewrite ljust_rule. cbn [bind run].
    rewrite (fold_left_lines_of (fun t => PyStr.center t (columns sz))).
    cbn [String.append]. rewrite append_assoc.
    unfold PyStr.nl. cbn [String.append]. reflexivity.
  - apply length_repeat_char.
  - apply Forall_map. eapply Forall_impl; [| exact Hfit].
    intros text Hle. cbv beta in *. rewrite length_center. lia.
Qed.

(** X15: The fill is looked at only when the box is drawn: at a terminal where
    every block fits, a fill that is not one character long is a
    [TypeError] as soon as there is a block, and without blocks the result
    is the empty string whatever the fill is. *)
Theorem prettify_fill_checked (boundary_filler : string)
  (text_arr : list string) (sz : terminal_size) (w w1 w2 : W) :
  respond StdoutIsatty w = (true, w1) ->
  respond GetTerminalSize w1 = (sz, w2) ->
  Forall (fun text => PyStr.len text <= columns sz) text_arr ->
  (text_arr <> [] -> PyStr.len boundary_filler <> 1 ->
   run respond (prettify boundary_filler text_arr) w
   = (Raised TypeError, w2, [StdoutIsatty; GetTerminalSize]))
  /\ (text_arr = [] ->
      run respond (prettify boundary_filler text_arr) w
      = (Returned "", w2, [StdoutIsatty; GetTerminalSize])).
Proof.
  intros Htty Hsize Hfit. split.
  - intros Hne Hlen.
    unfold prettify. simpl. rewrite Htty. simpl. rewrite Hsize.
    rewrite (all_fit_existsb _ _ Hfit).
    destruct text_arr as [| text rest]; [contradiction |].
    destruct boundary_filler as [| c [| d fill]]; try reflexivity.
    exfalso. apply Hlen. reflexivity.
  - intros ->.
    unfold prettify. simpl. rewrite Htty. simpl. rewrite Hsize. reflexivity.
Qed.



(** X17: With [MWI_LOG_FILE] naming a file that is there and can be read, the
    log section is the header followed by the lines of the file joined by
    newlines.  For a file whose lines each end in a newline this is the
    text of the file without its last newline. *)
Theorem collect_logs_with_logfile (w w1 w2 w3 w4 : W)
  (rendered : outcome string) (tr1 : list request) (path text : string) :
  run respond (generate_header "matlab proxy logs") w = (rendered, w1, tr1) ->
  respond (EnvironGet "MWI_LOG_FILE") w1 = (Some path, w2) ->
  respond (PathExists path) w2 = (true, w3) ->
  respond (ReadText path) w3 = (Returned text, w4) ->
  exists header : string,
    rendered = Returned header
    /\ run respond collect_logs_from_logfile w
       = (Returned (header ++ PyStr.join PyStr.nl (PyStr.splitlines text)),
          w4,
          (tr1 ++ [EnvironGet "MWI_LOG_FILE"; PathExists path;
                   ReadText path])%list)
    /\ (forall lines : list string,
          Forall (fun line =>
                    all_chars (fun c => negb (PyStr.is_linebreak c)) line
                    = true) lines ->
          text = one_per_line lines ->
          PyStr.join PyStr.nl (PyStr.splitlines text)
          = PyStr.join PyStr.nl lines).
Proof.
  intros Hhdr Henv Hexists Hread.
  destruct (prettify_returns W respond "-" ["matlab proxy logs"] w)
    as (framed & w1' & tr1' & Hp).
  assert (H : run respond (generate_header "matlab proxy logs") w
              = (Returned (framed ++ PyStr.nl), w1', tr1')).
  { unfold generate_header. exact (run_bind_ret _ _ _ _ _ _ _ _ Hp). }
  rewrite H in Hhdr. injection Hhdr as <- <- <-.
  exists (framed ++ PyStr.nl). split; [reflexivity |]. split.
  - unfold collect_logs_from_logfile.
    rewrite (run_bind_returned _ _ _ _ _ _ _ _ H).
    simpl. rewrite Henv. simpl. rewrite Hexists. simpl. rewrite Hread.
    reflexivity.
  - intros lines Hlines ->. now rewrite splitlines_one_per_line.
Qed.

(** X18: A log file that is there but cannot be read: the exception of the
    read leaves [collect_logs_from_logfile]. *)
Theorem collect_logs_read_error (w w1 w2 w3 w4 : W)
  (rendered : outcome string) (tr1 : list request) (path : string)
  (e : exn_class) :
  run respond (generate_header "matlab proxy logs") w = (rendered, w1, tr1) ->
  respond (EnvironGet "MWI_LOG_FILE") w1 = (Some path, w2) ->
  respond (PathExists path) w2 = (true, w3) ->
  respond (ReadText path) w3 = (Raised e, w4) ->
  run respond collect_logs_from_logfile w
  = (Raised e, w4,
     (tr1 ++ [EnvironGet "MWI_LOG_FILE"; PathExists path;
              ReadText path])%list).
Proof.
  intros Hhdr Henv Hexists Hread.
  destruct (prettify_returns W respond "-" ["matlab proxy logs"] w)
    as (framed & w1' & tr1' & Hp).
  assert (H : run respond (generate_header "matlab proxy logs") w
              = (Returned (framed ++ PyStr.nl), w1', tr1')).
  { unfold generate_header. exact (run_bind_ret _ _ _ _ _ _ _ _ Hp). }
  rewrite H in Hhdr. injection Hhdr as <- <- <-.
  unfold collect_logs_from_logfile.
  rewrite (run_bind_returned _ _ _ _ _ _ _ _ H).
  simpl. rewrite Henv. simpl. rewrite Hexists. simpl. rewrite Hread.
  reflexivity.
Qed.

End Rendering.

(* ===================================================================== *)
(** ** More on the report driver *)
(* ===================================================================== *)











Section DriverFailures.

Variable os_name : string.
Variable W : Type.
Variable respond : forall r : request, W -> reply r * W.




End DriverFailures.

Section DriverOutcome.

Variable os_name : string.
Variable W : Type.
Variable respond : forall r : request, W -> reply r * W.

Ltac section_step :=
  rewrite (run_list_comp_cons W respond);
  match goal with
  | |- context [run respond (bind ?p ?f) ?w0] =>
      rewrite (run_bind W respond p f w0)
  end;
  cbv beta zeta;
  match goal with
  | |- context [run respond ?p ?w0] =>
      let s := fresh "s" in
      let e := fresh "e" in
      destruct (run respond p w0) as [[[s | e] ?] ?]; [| reflexivity]
  end.

(** [print_environment_info] is its sections run in order, followed by
    one [print] of their texts, if they all return. *)
Lemma run_print_environment_info (w : W) :
  run respond (print_environment_info os_name) w
  = let '(o, w1, tr) :=
      run respond
        (list_comp (fun section => section) (report_sections os_name)) w in
    match o with
    | Returned texts =>
        let (u, w2) := respond (PrintOut (PyStr.join "" texts)) w1 in
        (Returned u, w2, (tr ++ [PrintOut (PyStr.join "" texts)])%list)
    | Raised e => (Raised e, w1, tr)
    end.
Proof.
  unfold print_environment_info, report_sections.
  do 10 section_step.
  cbn [list_comp run].
  match goal with
  | |- context [call (PrintOut ?d)] =>
      match goal with
      | |- context [PyStr.join "" ?l] =>
          assert (Hdoc : d = PyStr.join "" l)
      end
  end.
  { unfold PyStr.join. simpl. repeat rewrite append_assoc. reflexivity. }
  rewrite Hdoc. unfold call. cbn [run].
  match goal with
  | |- context [respond ?r ?w0] => destruct (respond r w0) as [u w']
  end.
  rewrite app_nil_r. repeat rewrite <- app_assoc. reflexivity.
Qed.

(** X20: If a section of the report raises, [print_environment_info] ends with
    that exception, the sections after it are not run, and nothing at all
    is printed: the texts of the sections before it are lost. *)
Theorem print_environment_info_prints_nothing_on_raise (w w1 : W)
  (e : exn_class) (tr : list request) :
  run respond
    (list_comp (fun section => section) (report_sections os_name)) w
  = (Raised e, w1, tr) ->
  run respond (print_environment_info os_name) w = (Raised e, w1, tr)
  /\ Forall (fun r => is_print r = false) tr.
Proof.
  intros H. split.
  - rewrite run_print_environment_info, H. reflexivity.
  - pose proof (silent_sections_trace W respond _ w
                  (silent_report_sections os_name)) as Hs.
    rewrite H in Hs. exact Hs.
Qed.

(** A command probed on its own: the report is the line of the command,
    without error flag and without recommendation. *)
Lemma run_process_output_command (suppress : bool) (cmd : string)
  (cp : CompletedProcess) (w w1 : W) :
  respond (SpawnShell cmd 10) w = (Exited cp, w1) ->
  run respond (process_output os_name exec_command suppress [cmd]) w
  = (Returned {| body := command_line cp; recommendations := "";
                 has_error := false |},
     w1, [SpawnShell cmd 10]).
Proof.
  intros H.
  rewrite (run_process_output os_name W respond _ _ _ _ _ _ _
             (run_exec_command_exited W respond _ _ _ _ H)).
  simpl. unfold command_line, cmd_output_str. simpl.
  rewrite append_assoc. reflexivity.
Qed.

(** X21: The section of the server extensions shows the output of all three
    commands, in order, after the header: each command goes through
    [process_output] on its own, so none of the lines is overwritten. *)
Theorem list_server_extensions_shows_all (w w1 w2 w3 w4 : W)
  (header : string) (tr : list request) (cp1 cp2 cp3 : CompletedProcess) :
  run respond (generate_header "Server extensions") w
  = (Returned header, w1, tr) ->
  respond (SpawnShell "jupyter serverextension list" 10) w1
  = (Exited cp1, w2) ->
  respond (SpawnShell "jupyter nbextension list" 10) w2 = (Exited cp2, w3) ->
  respond (SpawnShell "jupyter labextension list" 10) w3
  = (Exited cp3, w4) ->
  run respond (list_server_extensions os_name) w
  = (Returned (header ++ command_line cp1 ++ command_line cp2
               ++ command_line cp3),
     w4,
     (tr ++ [SpawnShell "jupyter serverextension list" 10;
             SpawnShell "jupyter nbextension list" 10;
             SpawnShell "jupyter labextension list" 10])%list).
Proof.
  intros Hh H1 H2 H3. unfold list_server_extensions.
  rewrite (run_bind_returned _ _ _ _ _ _ _ _ Hh). cbv zeta.
  rewrite (run_bind W respond).
  rewrite (run_list_comp_cons W respond). cbv beta.
  rewrite (run_process_output_command false _ _ _ _ H1). cbv beta iota zeta.
  rewrite (run_list_comp_cons W respond). cbv beta.
  rewrite (run_process_output_command false _ _ _ _ H2). cbv beta iota zeta.
  rewrite (run_list_comp_cons W respond). cbv beta.
  rewrite (run_process_output_command false _ _ _ _ H3). cbv beta iota zeta.
  cbn [list_comp run map app]. unfold Report_str, PyStr.join.
  cbn [String.concat body recommendations String.append].
  rewrite !append_nil_r. reflexivity.
Qed.

End DriverOutcome.

(* ===================================================================== *)
(** ** The further properties on concrete machines *)
(* ===================================================================== *)

Lemma exec_command_returned_witness :
  map command [new_cmd_only_output "echo hello" (Some "hello") false;
               new_cmd_only_output "false" (Some "") false]
  = ["echo hello"; "false"]
  /\ [SpawnShell "echo hello" 10; SpawnShell "false" 10]
     = map spawn ["echo hello"; "false"]
  /\ Forall (fun r => cls r = class_cmd_only_output
                      /\ output_absent r = false
                      /\ forall s, output r = Some s -> trimmed s)
       [new_cmd_only_output "echo hello" (Some "hello") false;
        new_cmd_only_output "false" (Some "") false].
Proof.
  apply (exec_command_returned host host_respond ["echo hello"; "false"]
           linux_pipe linux_pipe).
  reflexivity.
Defined.


Lemma exec_command_app_witness :
  run host_respond (exec_command (["echo hello"] ++ ["false"])%list)
    linux_pipe
  = (Returned
       ([new_cmd_only_output "echo hello" (Some "hello") false]
        ++ [new_cmd_only_output "false" (Some "") false])%list,
     linux_pipe,
     ([SpawnShell "echo hello" 10] ++ [SpawnShell "false" 10])%list).
Proof.
  apply (exec_command_app host host_respond ["echo hello"] ["false"]
           linux_pipe linux_pipe linux_pipe).
  - reflexivity.
  - reflexivity.
Defined.

Lemma exec_command_timeout_aborts_batch_witness :
  run host_respond
    (exec_command (["echo hello"] ++ "sleep 20" :: ["false"])%list)
    linux_pipe
  = (Raised TimeoutExpired, linux_pipe,
     ([SpawnShell "echo hello" 10] ++ [SpawnShell "sleep 20" 10])%list).
Proof.
  apply (exec_command_timeout_aborts_batch host host_respond
           ["echo hello"] ["false"] "sleep 20"
           linux_pipe linux_pipe linux_pipe
           [new_cmd_only_output "echo hello" (Some "hello") false]).
  - reflexivity.
  - reflexivity.
Defined.

Lemma find_executable_app_witness :
  run host_respond (find_executable (["python"] ++ ["matlab"])%list)
    linux_pipe
  = (Returned
       ([new_cmd_output "python" (Some "/usr/bin/python") false]
        ++ [new_cmd_output "matlab" None true])%list,
     linux_pipe, ([Which "python"] ++ [Which "matlab"])%list).
Proof.
  apply (find_executable_app host host_respond ["python"] ["matlab"]
           linux_pipe linux_pipe linux_pipe).
  - reflexivity.
  - reflexivity.
Defined.

Lemma exec_command_blank_stderr_witness :
  run host_respond (exec_command ["conda env list"]) linux_blank
  = (Returned [new_cmd_only_output "conda env list" (Some "") true],
     linux_blank, [SpawnShell "conda env list" 10]).
Proof.
  apply (exec_command_blank_stderr host host_respond "conda env list"
           {| returncode := 0%Z; stdout := ""; stderr := " " |}
           linux_blank linux_blank).
  - reflexivity.
  - reflexivity.
  - reflexivity.
  - discriminate.
Defined.

Lemma process_output_keeps_last_witness :
  exists rep : Report,
    run host_respond
      (process_output "posix" find_executable false ["matlab"; "python"])
      linux_pipe
    = (Returned rep, linux_pipe, [Which "matlab"; Which "python"])
    /\ ([new_cmd_output "matlab" None true;
         new_cmd_output "python" (Some "/usr/bin/python") false] = [] ->
        rep = {| body := ""; recommendations := ""; has_error := false |})
    /\ (forall (before : list cmd_output) (final : cmd_output),
          [new_cmd_output "matlab" None true;
           new_cmd_output "python" (Some "/usr/bin/python") false]
          = (before ++ [final])%list ->
          body rep = cmd_output_str "posix" final
          /\ recommendations rep
             = if has_error rep && negb false
               then recommendation_for (command final) else "").
Proof.
  apply (process_output_keeps_last "posix" host host_respond
           find_executable false ["matlab"; "python"]
           linux_pipe linux_pipe).
  reflexivity.
Defined.

Lemma process_output_suppress_only_recommendation_witness :
  exists shown quiet : Report,
    run host_respond (process_output "posix" find_executable false ["matlab"])
      linux_pipe
    = (Returned shown, linux_pipe, [Which "matlab"])
    /\ run host_respond
         (process_output "posix" find_executable true ["matlab"]) linux_pipe
       = (Returned quiet, linux_pipe, [Which "matlab"])
    /\ body quiet = body shown
    /\ has_error quiet = has_error shown
    /\ Report_str quiet = body shown.
Proof.
  apply (process_output_suppress_only_recommendation "posix" host
           host_respond find_executable ["matlab"] linux_pipe linux_pipe
           [new_cmd_output "matlab" None true]).
  reflexivity.
Defined.

Lemma process_output_of_commands_witness :
  has_error {| body := "warn" ++ PyStr.nl; recommendations := "";
               has_error := false |} = false
  /\ recommendations {| body := "warn" ++ PyStr.nl; recommendations := "";
                        has_error := false |} = ""
  /\ Report_str {| body := "warn" ++ PyStr.nl; recommendations := "";
                   has_error := false |}
     = body {| body := "warn" ++ PyStr.nl; recommendations := "";
               has_error := false |}
  /\ [SpawnShell "echo warn >&2" 10] = map spawn ["echo warn >&2"].
Proof.
  apply (process_output_of_commands "posix" host host_respond false
           ["echo warn >&2"] linux_pipe linux_pipe).
  reflexivity.
Defined.

Lemma find_executable_and_version_missing_witness :
  exists rep : Report,
    run host_respond (find_executable_and_version "posix" "conda" true)
      linux_pipe
    = (Returned [rep], linux_pipe, [Which "conda"])
    /\ has_error rep = true
    /\ run host_respond
         (process_output "posix" find_executable true ["conda"]) linux_pipe
       = (Returned rep, linux_pipe, [Which "conda"])
    /\ Forall (fun r => is_spawn r = false)
         (snd (run host_respond
                 (find_executable_and_version "posix" "conda" true)
                 linux_pipe)).
Proof.
  apply (find_executable_and_version_missing "posix" host host_respond
           "conda" true linux_pipe linux_pipe).
  reflexivity.
Defined.

Lemma find_executable_and_version_found_witness :
  exists rep version : Report,
    run host_respond (find_executable_and_version "posix" "pip" false)
      linux_pipe
    = (Returned [rep; version], linux_pipe,
       [Which "pip"; SpawnShell ("pip" ++ " --version") 10])
    /\ has_error rep = false
    /\ run host_respond
         (process_output "posix" find_executable false ["pip"]) linux_pipe
       = (Returned rep, linux_pipe, [Which "pip"])
    /\ run host_respond
         (process_output "posix" exec_command false ["pip" ++ " --version"])
         linux_pipe
       = (Returned version, linux_pipe,
          [SpawnShell ("pip" ++ " --version") 10]).
Proof.
  apply (find_executable_and_version_found "posix" host host_respond
           "pip" "/usr/bin/pip" false
           {| returncode := 0%Z; stdout := "pip 22.0.2" ++ PyStr.nl;
              stderr := "" |}
           linux_pipe linux_pipe linux_pipe).
  - reflexivity.
  - reflexivity.
Defined.

Lemma prettify_framed_witness :
  run host_respond (prettify (String "-" "") ["abc"; "de"])
    (linux_terminal 10)
  = (Returned
       (PyStr.nl ++ PyStr.repeat_char "-" 10 ++ PyStr.nl
        ++ one_per_line
             (map (fun text => PyStr.center text 10) ["abc"; "de"])
        ++ PyStr.repeat_char "-" 10),
     linux_terminal 10, [StdoutIsatty; GetTerminalSize])
  /\ PyStr.len (PyStr.repeat_char "-" 10) = 10
  /\ Forall (fun line => PyStr.len line = 10)
       (map (fun text => PyStr.center text 10) ["abc"; "de"]).
Proof.
  apply (prettify_framed host host_respond "-" ["abc"; "de"]
           {| columns := 10; lines := 24 |}
           (linux_terminal 10) (linux_terminal 10) (linux_terminal 10)).
  - reflexivity.
  - reflexivity.
  - discriminate.
  - repeat constructor.
Defined.

Lemma prettify_fill_checked_witness :
  (["abc"] <> [] -> PyStr.len "--" <> 1 ->
   run host_respond (prettify "--" ["abc"]) (linux_terminal 10)
   = (Raised TypeError, linux_terminal 10, [StdoutIsatty; GetTerminalSize]))
  /\ (["abc"] = [] ->
      run host_respond (prettify "--" ["abc"]) (linux_terminal 10)
      = (Returned "", linux_terminal 10, [StdoutIsatty; GetTerminalSize])).
Proof.
  apply (prettify_fill_checked host host_respond "--" ["abc"]
           {| columns := 10; lines := 24 |}
           (linux_terminal 10) (linux_terminal 10) (linux_terminal 10)).
  - reflexivity.
  - reflexivity.
  - repeat constructor.
Defined.

Lemma collect_logs_with_logfile_witness :
  exists header : string,
    Returned (header_on linux_with_log "matlab proxy logs") = Returned header
    /\ run host_respond collect_logs_from_logfile linux_with_log
       = (Returned
            (header
             ++ PyStr.join PyStr.nl
                  (PyStr.splitlines
                     ("starting" ++ PyStr.nl ++ "ready" ++ PyStr.nl))),
          linux_with_log,
          ([StdoutIsatty]
           ++ [EnvironGet "MWI_LOG_FILE"; PathExists "/tmp/mwi.log";
               ReadText "/tmp/mwi.log"])%list)
    /\ (forall lines : list string,
          Forall (fun line =>
                    all_chars (fun c => negb (PyStr.is_linebreak c)) line
                    = true) lines ->
          "starting" ++ PyStr.nl ++ "ready" ++ PyStr.nl
          = one_per_line lines ->
          PyStr.join PyStr.nl
            (PyStr.splitlines
               ("starting" ++ PyStr.nl ++ "ready" ++ PyStr.nl))
          = PyStr.join PyStr.nl lines).
Proof.
  apply (collect_logs_with_logfile host host_respond
           linux_with_log linux_with_log linux_with_log linux_with_log
           linux_with_log
           (Returned (header_on linux_with_log "matlab proxy logs"))
           [StdoutIsatty] "/tmp/mwi.log"
           ("starting" ++ PyStr.nl ++ "ready" ++ PyStr.nl)).
  - reflexivity.
  - reflexivity.
  - reflexivity.
  - reflexivity.
Defined.

Lemma collect_logs_read_error_witness :
  run unreadable_log_respond collect_logs_from_logfile linux_stale_log
  = (Raised OSError, linux_stale_log,
     ([StdoutIsatty]
      ++ [EnvironGet "MWI_LOG_FILE"; PathExists "/tmp/mwi.log";
          ReadText "/tmp/mwi.log"])%list).
Proof.
  apply (collect_logs_read_error host unreadable_log_respond
           linux_stale_log linux_stale_log linux_stale_log linux_stale_log
           linux_stale_log
           (Returned (header_on linux_stale_log "matlab proxy logs"))
           [StdoutIsatty] "/tmp/mwi.log" OSError).
  - reflexivity.
  - reflexivity.
  - reflexivity.
  - reflexivity.
Defined.


Lemma print_environment_info_prints_nothing_on_raise_witness :
  run host_respond (print_environment_info "posix") linux_slow_python
  = (Raised TimeoutExpired, linux_slow_python,
     section_requests "posix" linux_slow_python)
  /\ Forall (fun r => is_print r = false)
       (section_requests "posix" linux_slow_python).
Proof.
  apply (print_environment_info_prints_nothing_on_raise "posix" host
           host_respond linux_slow_python linux_slow_python
           TimeoutExpired (section_requests "posix" linux_slow_python)).
  vm_compute. reflexivity.
Defined.

Lemma list_server_extensions_shows_all_witness :
  run host_respond (list_server_extensions "posix") linux_pipe
  = (Returned
       (header_on linux_pipe "Server extensions"
        ++ command_line {| returncode := 0%Z; stdout := ""; stderr := "" |}
        ++ command_line {| returncode := 0%Z; stdout := ""; stderr := "" |}
        ++ command_line {| returncode := 0%Z; stdout := ""; stderr := "" |}),
     linux_pipe,
     ([StdoutIsatty]
      ++ [SpawnShell "jupyter serverextension list" 10;
          SpawnShell "jupyter nbextension list" 10;
          SpawnShell "jupyter labextension list" 10])%list).
Proof.
  apply (list_server_extensions_shows_all "posix" host host_respond
           linux_pipe linux_pipe linux_pipe linux_pipe linux_pipe).
  - reflexivity.
  - reflexivity.
  - reflexivity.
  - reflexivity.
Defined.
